(** * omaha-update: the poker-table detection engine and its web client

    Part I embeds the web client script (apps/server/web/static/client-app.js
    and the main-page script that follows it in the same source file).
    Part II models the detection engine, whose code lives outside the
    shipped sources, from its specification.  Part III holds the theorems. *)

From Stdlib Require Import List String Ascii Bool NArith ZArith QArith Lia.
From Stdlib Require Import PrimFloat FloatOps SpecFloat DecimalString DecimalNat.
Import ListNotations.

Set Implicit Arguments.
Set Warnings "-register-all".
Close Scope Q_scope.
Open Scope list_scope.

(* ================================================================== *)
(** * Part I.a  JavaScript strings and values *)
(* ================================================================== *)

Module Js.

(** A JavaScript string is a sequence of UTF-16 code units. *)
Definition code_unit := N.
Definition jsstring := list code_unit.

(** An ASCII source literal. *)
Definition lit (s : string) : jsstring :=
  map N_of_ascii (list_ascii_of_string s).

(** A template fragment.  The source fragments are full of double quotes;
    here they are written with a backtick (which no fragment of the source
    contains, being the delimiter of JavaScript templates) and [tpl] puts
    the double quote (code unit 34) back. *)
Definition unquote (c : code_unit) : code_unit :=
  if N.eqb c 96 then 34%N else c.

Definition tpl (s : string) : jsstring := map unquote (lit s).

Fixpoint jsstring_eqb (a b : jsstring) : bool :=
  match a, b with
  | [], [] => true
  | x :: a', y :: b' => N.eqb x y && jsstring_eqb a' b'
  | _, _ => false
  end.

(** [s.slice(-1)]: the last code unit, or the empty string. *)
Definition slice_last (s : jsstring) : jsstring :=
  skipn (List.length s - 1) s.

(** [s.startsWith(p)]. *)
Fixpoint startsWith (s p : jsstring) : bool :=
  match p, s with
  | [], _ => true
  | y :: p', x :: s' => N.eqb x y && startsWith s' p'
  | _ :: _, [] => false
  end.

(** [parts.join('')]. *)
Definition join_empty (parts : list jsstring) : jsstring := List.concat parts.

(** [parts.join(sep)], used by JSON.stringify. *)
Fixpoint join (sep : jsstring) (parts : list jsstring) : jsstring :=
  match parts with
  | [] => []
  | [p] => p
  | p :: rest => p ++ sep ++ join sep rest
  end.

(** The class [\s] of a regular expression without the [u] flag:
    WhiteSpace and LineTerminator of ECMAScript. *)
Definition is_whitespace (c : code_unit) : bool :=
  (N.leb 9 c && N.leb c 13)          (* TAB LF VT FF CR *)
  || N.eqb c 32                      (* SPACE *)
  || N.eqb c 160                     (* NO-BREAK SPACE *)
  || N.eqb c 5760                    (* U+1680 *)
  || (N.leb 8192 c && N.leb c 8202)  (* U+2000 .. U+200A *)
  || N.eqb c 8232 || N.eqb c 8233    (* U+2028 U+2029 *)
  || N.eqb c 8239                    (* U+202F *)
  || N.eqb c 8287                    (* U+205F *)
  || N.eqb c 12288                   (* U+3000 *)
  || N.eqb c 65279.                  (* U+FEFF *)

(** [s.replace(/\s+/g, '')].  The global match scans left to right; a code
    unit of class [\s] belongs to the current (maximal) match, whose
    replacement is empty; any other code unit is copied. *)
Fixpoint replace_whitespace_runs (s : jsstring) : jsstring :=
  match s with
  | [] => []
  | c :: rest =>
      if is_whitespace c then replace_whitespace_runs rest
      else c :: replace_whitespace_runs rest
  end.

(** A value that may be missing: a property that is absent ([undefined]),
    [null], or present. *)
Inductive field (A : Type) : Type :=
| Absent : field A
| Null : field A
| Val : A -> field A.
Arguments Absent {A}.
Arguments Null {A}.
Arguments Val {A} _.

(** The scalar values a parsed JSON document can hold in a property that
    the script only interpolates or compares. *)
Inductive scalar : Type :=
| SUndefined : scalar
| SNull : scalar
| SBool : bool -> scalar
| SNumber : float -> scalar
| SString : jsstring -> scalar.

(** A parsed JSON document. *)
Inductive json : Type :=
| JNull : json
| JBool : bool -> json
| JNumber : float -> json
| JString : jsstring -> json
| JArray : list json -> json
| JObject : list (jsstring * json) -> json.

Definition hex_digit (d : N) : code_unit :=
  if N.ltb d 10 then (48 + d)%N else (87 + d)%N.

(** UnicodeEscape: backslash, u and four lowercase hexadecimal digits. *)
Definition unicode_escape (c : code_unit) : jsstring :=
  [92%N; 117%N;
   hex_digit (N.modulo (N.div c 4096) 16); hex_digit (N.modulo (N.div c 256) 16);
   hex_digit (N.modulo (N.div c 16) 16); hex_digit (N.modulo c 16)].

Definition is_lead_surrogate (c : code_unit) : bool :=
  N.leb 55296 c && N.leb c 56319.
Definition is_trail_surrogate (c : code_unit) : bool :=
  N.leb 56320 c && N.leb c 57343.

(** The escape of one code unit that is not part of a surrogate pair. *)
Definition quote_unit (c : code_unit) : jsstring :=
  if N.eqb c 8 then [92; 98]%N            (* \b *)
  else if N.eqb c 9 then [92; 116]%N      (* \t *)
  else if N.eqb c 10 then [92; 110]%N     (* \n *)
  else if N.eqb c 12 then [92; 102]%N     (* \f *)
  else if N.eqb c 13 then [92; 114]%N     (* \r *)
  else if N.eqb c 34 then [92; 34]%N      (* the double quote *)
  else if N.eqb c 92 then [92; 92]%N      (* the backslash *)
  else if N.ltb c 32 || is_lead_surrogate c || is_trail_surrogate c
       then unicode_escape c
  else [c].

(** QuoteJSONString without the enclosing quotes: the string is read by code
    points, so a well-formed surrogate pair is copied and a lone surrogate
    is escaped. *)
Fixpoint quote_body (s : jsstring) : jsstring :=
  match s with
  | [] => []
  | c :: rest =>
      if is_lead_surrogate c then
        match rest with
        | d :: rest' =>
            if is_trail_surrogate d then c :: d :: quote_body rest'
            else quote_unit c ++ quote_body rest
        | [] => quote_unit c
        end
      else quote_unit c ++ quote_body rest
  end.

Definition QuoteJSONString (s : jsstring) : jsstring :=
  [34%N] ++ quote_body s ++ [34%N].

Definition is_finite (x : float) : bool :=
  negb (PrimFloat.is_nan x) && negb (PrimFloat.is_infinity x).

Section Host.

(** Number::toString, the decimal rendering of a double by the host. *)
Variable Number_toString : float -> jsstring.
(** StringToNumber, the host's reading of a string as a double. *)
Variable StringToNumber : jsstring -> float.

(** ToString of a scalar, as a template literal applies it. *)
Definition ToString (v : scalar) : jsstring :=
  match v with
  | SUndefined => lit "undefined"
  | SNull => lit "null"
  | SBool true => lit "true"
  | SBool false => lit "false"
  | SNumber x => Number_toString x
  | SString s => s
  end.

(** ToNumber of a scalar. *)
Definition ToNumber (v : scalar) : float :=
  match v with
  | SUndefined => PrimFloat.nan
  | SNull => 0%float
  | SBool true => 1%float
  | SBool false => 0%float
  | SNumber x => x
  | SString s => StringToNumber s
  end.

(** [v > 0]. *)
Definition gt_zero (v : scalar) : bool := PrimFloat.ltb 0%float (ToNumber v).

(** JSON.stringify of a parsed document (no indentation, no replacer). *)
Fixpoint SerializeJSON (v : json) : jsstring :=
  match v with
  | JNull => lit "null"
  | JBool true => lit "true"
  | JBool false => lit "false"
  | JNumber x => if is_finite x then Number_toString x else lit "null"
  | JString s => QuoteJSONString s
  | JArray l => lit "[" ++ join (lit ",") (map SerializeJSON l) ++ lit "]"
  | JObject kvs =>
      lit "{"
      ++ join (lit ",")
           (map (fun kv => QuoteJSONString (fst kv) ++ lit ":" ++ SerializeJSON (snd kv)) kvs)
      ++ lit "}"
  end.

(** [JSON.stringify(v)] where [v] may be [undefined] ([None]): the result
    is then [undefined] too. *)
Definition JSON_stringify (v : option json) : option jsstring :=
  option_map SerializeJSON v.

End Host.

(** Strict equality of two values that are strings or [undefined]. *)
Definition strict_eq (a b : option jsstring) : bool :=
  match a, b with
  | None, None => true
  | Some x, Some y => jsstring_eqb x y
  | _, _ => false
  end.

(** Truthiness. *)
Definition truthy_string (s : field jsstring) : bool :=
  match s with
  | Val (_ :: _) => true
  | _ => false
  end.

(** [a && a.length > 0] for a property holding an array. *)
Definition nonempty_array {A : Type} (a : field (list A)) : bool :=
  match a with
  | Val (_ :: _) => true
  | _ => false
  end.

End Js.

(* ================================================================== *)
(** * Part I.b  The client script (client-app.js) *)
(* ================================================================== *)

Module Client.
Import Js.

(** ** Records received from the server

    The shapes are read off the property accesses of the script.  A property
    the script guards before use is a [field]; a property it only
    interpolates into a template or compares is a [scalar]. *)

Record Config : Type := {
  backend_capture_interval : scalar;
  (** the four display toggles, by their truthiness *)
  show_table_cards : bool;
  show_positions : bool;
  show_moves : bool;
  show_solver_link : bool
}.

Record Card : Type := { display : jsstring }.

Record Position : Type := { player : scalar; name : scalar }.

Record Move : Type := {
  player_label : scalar;
  action : scalar;
  amount : scalar
}.

(** One element of [detection.moves]: a street and its moves. *)
Record StreetData : Type := {
  sd_street : scalar;
  sd_moves : list Move
}.

Record Detection : Type := {
  window_name : scalar;
  last_update : scalar;
  player_cards : field (list Card);
  player_cards_string : scalar;
  table_cards : field (list Card);
  table_cards_string : scalar;
  street : field jsstring;
  positions : field (list Position);
  moves : field (list StreetData);
  solver_link : field jsstring
}.

(** The part of the page the modelled functions write to. *)
Record Page : Type := {
  clipboard : jsstring;
  toast : jsstring
}.

(** The script's initial [config]. *)
Definition config : Config :=
  {| backend_capture_interval := SNumber 3%float;
     show_table_cards := true;
     show_positions := true;
     show_moves := true;
     show_solver_link := true |}.

(** The script's initial [previousDetections], the empty array. *)
Definition previousDetections : option json := Some (JArray []).

(** ** copyToClipboard *)

(** The constant [normalized] of copyToClipboard:
    [text ? text.replace(/\s+/g, '') : '']. *)
Definition normalized (text : field jsstring) : jsstring :=
  if truthy_string text then
    match text with
    | Val s => replace_whitespace_runs s
    | _ => []
    end
  else [].

(** copyToClipboard.  [navigator.clipboard.writeText(normalized)] is
    settled by the browser: [granted] tells whether the promise resolves
    (the clipboard then holds the text written) or rejects. *)
Definition copyToClipboard (text : field jsstring) (granted : bool) (p : Page) : Page :=
  if granted
  then {| clipboard := normalized text; toast := lit "Copied to clipboard!" |}
  else {| clipboard := clipboard p; toast := lit "Failed to copy!" |}.

(** ** getSuitColor *)

Definition heart : jsstring := [9829%N].     (* U+2665 *)
Definition diamond : jsstring := [9830%N].   (* U+2666 *)
Definition club : jsstring := [9827%N].      (* U+2663 *)
Definition spade : jsstring := [9824%N].     (* U+2660 *)

Definition getSuitColor (card : jsstring) : jsstring :=
  let suit := slice_last card in
  if jsstring_eqb suit heart then lit "red"
  else if jsstring_eqb suit diamond then lit "blue"
  else if jsstring_eqb suit club then lit "green"
  else lit "black".

Section Rendering.

Variable Number_toString : float -> jsstring.
Variable StringToNumber : jsstring -> float.
(** [new Date(v).toLocaleTimeString()], which depends on the host's locale
    and time zone. *)
Variable toLocaleTimeString : scalar -> jsstring.

#[local] Abbreviation show := (ToString Number_toString).

(** ** detectChanges *)

Definition detectChanges (previousDetections newDetections : option json) : bool :=
  let newStr := JSON_stringify Number_toString newDetections in
  let prevStr := JSON_stringify Number_toString previousDetections in
  negb (strict_eq newStr prevStr).

(** ** Section builders *)

(** The element built for one card by the [map] callbacks. *)
Definition cardHtml (card : Card) : jsstring :=
  tpl "<div class=`card " ++ getSuitColor (display card) ++ tpl "`>"
  ++ display card ++ tpl "</div>".

Definition createPlayerCardsSection (detection : Detection) (isUpdate : bool) : jsstring :=
  let cardsClass := if isUpdate then lit "cards-block new-cards" else lit "cards-block" in
  match player_cards detection with
  | Val (c :: cs) =>
      let cardsHtml := join_empty (map cardHtml (c :: cs)) in
      tpl "<div class=`" ++ cardsClass ++ tpl "` onclick=`copyToClipboard('"
      ++ show (player_cards_string detection) ++ tpl "')`>" ++ cardsHtml ++ tpl "</div>"
  | _ => tpl "<div class=`no-cards`>No cards detected</div>"
  end.

Definition createTableCardsSection (config : Config) (detection : Detection)
  (isUpdate : bool) : jsstring :=
  if negb (show_table_cards config) then []
  else
    let cardsClass := if isUpdate then lit "cards-block new-cards" else lit "cards-block" in
    let streetClass :=
      match street detection with
      | Val (c :: s) =>
          if startsWith (c :: s) (lit "ERROR") then lit "street-indicator error"
          else lit "street-indicator"
      | _ => lit "street-indicator"
      end in
    let streetDisplay :=
      match street detection with
      | Val (c :: s) => tpl "<span class=`" ++ streetClass ++ tpl "`>" ++ (c :: s) ++ tpl "</span>"
      | _ => []
      end in
    let cardsHtml :=
      match table_cards detection with
      | Val (c :: cs) =>
          let cards := join_empty (map cardHtml (c :: cs)) in
          tpl "<div class=`" ++ cardsClass ++ tpl "` onclick=`copyToClipboard('"
          ++ show (table_cards_string detection) ++ tpl "')`>" ++ cards ++ tpl "</div>"
      | _ => tpl "<div class=`no-cards`>No cards detected</div>"
      end in
    tpl "
        <div class=`table-cards-column`>
            <div class=`cards-label`>Table Cards: " ++ streetDisplay ++ tpl "</div>
            <div class=`cards-container`>" ++ cardsHtml ++ tpl "</div>
        </div>
    ".

Definition positionHtml (position : Position) : jsstring :=
  tpl "<div class=`position`>" ++ show (player position) ++ lit " "
  ++ show (name position) ++ tpl "</div>".

Definition createPositionsSection (config : Config) (detection : Detection)
  (isUpdate : bool) : jsstring :=
  if negb (show_positions config) then []
  else
    let positionsClass :=
      if isUpdate then lit "positions-block new-positions" else lit "positions-block" in
    let positionsHtml :=
      match positions detection with
      | Val (p :: ps) =>
          let positions := join_empty (map positionHtml (p :: ps)) in
          tpl "<div class=`" ++ positionsClass ++ tpl "`>" ++ positions ++ tpl "</div>"
      | _ => tpl "<div class=`no-positions`>No position detected</div>"
      end in
    tpl "
        <div class=`positions-column`>
            <div class=`cards-label`>Positions:</div>
            <div class=`positions-container`>
                " ++ positionsHtml ++ tpl "
            </div>
        </div>
    ".

(** The variable [moveText] of the inner [map] callback of
    createMovesSection, once the callback has run. *)
Definition moveText (move : Move) : jsstring :=
  let moveText := show (player_label move) ++ lit ": " ++ show (action move) in
  if gt_zero StringToNumber (amount move)
  then moveText ++ lit " $" ++ show (amount move)
  else moveText.

Definition moveHtml (move : Move) : jsstring :=
  tpl "<div class=`move`>" ++ moveText move ++ tpl "</div>".

Definition streetMovesHtml (movesClass : jsstring) (streetData : StreetData) : jsstring :=
  let moves := join_empty (map moveHtml (sd_moves streetData)) in
  tpl "
            <div class=`" ++ movesClass ++ tpl "`>
                <div class=`street-moves-header`>" ++ show (sd_street streetData) ++ tpl "</div>
                <div class=`street-moves-list`>" ++ moves ++ tpl "</div>
            </div>
        ".

Definition createMovesSection (config : Config) (detection : Detection)
  (isUpdate : bool) : jsstring :=
  if negb (show_moves config) then []
  else
    match moves detection with
    | Val (sd :: sds) =>
        let movesClass :=
          if isUpdate then lit "street-moves-block new-moves" else lit "street-moves-block" in
        let movesHtml := join_empty (map (streetMovesHtml movesClass) (sd :: sds)) in
        tpl "
        <div class=`cards-section`>
            <div class=`cards-label`>Moves History:</div>
            <div class=`moves-by-street`>
                " ++ movesHtml ++ tpl "
            </div>
        </div>
    "
    | _ =>
        tpl "
            <div class=`cards-section`>
                <div class=`cards-label`>Moves History:</div>
                <div class=`moves-by-street`>
                    <div class=`no-moves`>No moves detected</div>
                </div>
            </div>
        "
    end.

(** U+1F517, the link symbol that ends the solver link's text. *)
Definition link_symbol : jsstring := [55357%N; 56599%N].

Definition createSolverLinkSection (config : Config) (detection : Detection)
  (isUpdate : bool) : jsstring :=
  if negb (show_solver_link config) || negb (truthy_string (solver_link detection)) then []
  else
    let linkClass :=
      if isUpdate then lit "solver-link-block new-solver-link" else lit "solver-link-block" in
    let href := match solver_link detection with Val s => s | _ => [] end in
    tpl "
        <div class=`cards-section`>
            <div class=`cards-label`>Solver Analysis !!!BETA!!!:</div>
            <div class=`" ++ linkClass ++ tpl "`>
                <a href=`" ++ href ++ tpl "` target=`_blank` class=`solver-link`>
                    Open in FlopHero " ++ link_symbol ++ tpl "
                </a>
            </div>
        </div>
    ".

(** The markup createTableContainer wraps around the sections. *)
Definition tableFrame (detection : Detection) (isUpdate : bool)
  (mainCardsContent movesSection solverLinkSection : jsstring) : jsstring :=
  let tableClass :=
    if isUpdate then lit "table-container updated client-table"
    else lit "table-container client-table" in
  tpl "
        <div class=`" ++ tableClass ++ tpl "`>
            <div class=`table-header`>
                <div class=`table-name`>" ++ show (window_name detection) ++ tpl "</div>
                <div class=`last-update`>Updated: "
  ++ toLocaleTimeString (last_update detection) ++ tpl "</div>
            </div>
            <div class=`main-cards-section`>
                " ++ mainCardsContent ++ tpl "
            </div>
            " ++ movesSection ++ tpl "
            " ++ solverLinkSection ++ tpl "
        </div>
    ".

(** The initial [mainCardsContent]: the player cards column. *)
Definition playerCardsColumn (detection : Detection) (isUpdate : bool) : jsstring :=
  tpl "
        <div class=`player-cards-column`>
            <div class=`cards-label`>Player Cards:</div>
            <div class=`player-section`>
                " ++ createPlayerCardsSection detection isUpdate ++ tpl "
            </div>
        </div>
    ".

(** [if (section) mainCardsContent += section]. *)
Definition append_if_truthy (content section : jsstring) : jsstring :=
  match section with
  | [] => content
  | _ :: _ => content ++ section
  end.

Definition createTableContainer (config : Config) (detection : Detection)
  (isUpdate : bool) : jsstring :=
  let tableCardsSection := createTableCardsSection config detection isUpdate in
  let positionsSection := createPositionsSection config detection isUpdate in
  let movesSection := createMovesSection config detection isUpdate in
  let solverLinkSection := createSolverLinkSection config detection isUpdate in
  let mainCardsContent := playerCardsColumn detection isUpdate in
  let mainCardsContent := append_if_truthy mainCardsContent tableCardsSection in
  let mainCardsContent := append_if_truthy mainCardsContent positionsSection in
  tableFrame detection isUpdate mainCardsContent movesSection solverLinkSection.

End Rendering.

End Client.

(** The main-page script, the second script of the source file.  Its
    positions and moves builders repeat those of the client page word for
    word; its getSuitColor compares the suit with three literals of three
    code units each, and its solver link ends in four other code units
    (module MainPageTables has the rest of the page). *)
Module MainPage.
Import Js.

Definition heart_literal : jsstring := [226%N; 8482%N; 165%N].
Definition diamond_literal : jsstring := [226%N; 8482%N; 166%N].
Definition club_literal : jsstring := [226%N; 8482%N; 163%N].

Definition getSuitColor (card : jsstring) : jsstring :=
  let suit := slice_last card in
  if jsstring_eqb suit heart_literal then lit "red"
  else if jsstring_eqb suit diamond_literal then lit "blue"
  else if jsstring_eqb suit club_literal then lit "green"
  else lit "black".

End MainPage.

(* ================================================================== *)
(** * Part II  The detection engine *)
(* ================================================================== *)

(** The engine (template matching, bid reader, game state tracker) is
    Python code that is not among the shipped sources; only the web client
    that displays its records is.  Its definitions below follow the
    specification, section by section. *)
Module Engine.

(** ** Data model (specification, section 3) *)

(** Modelled from the spec: the Street enumeration of the missing engine. *)
Inductive street : Type := Preflop | Flop | Turn | River.

(** Modelled from the spec: the Street function of the missing tracker,
    "a pure function of community-card count (0 -> Preflop, 3 -> Flop,
    4 -> Turn, 5 -> River)"; "any other c is invalid input and must not be
    silently coerced", so every other count has no street. *)
Definition Street (c : nat) : option street :=
  match c with
  | 0 => Some Preflop
  | 3 => Some Flop
  | 4 => Some Turn
  | 5 => Some River
  | _ => None
  end.

(** Modelled from the spec: the suit of a DetectedCard. *)
Inductive suit : Type := Spades | Hearts | Diamonds | Clubs.

(** Modelled from the spec: an accepted DetectedCard, "{rank, suit, screen
    region, match confidence}".  The region is kept as the slot the card
    lies in (one match per slot is left after the non-max suppression); the
    confidence is used up by the matching engine, which hands over the
    matches above the threshold. *)
Record Card : Type := { slot : nat; rank : nat; card_suit : suit }.

(** Modelled from the spec: a Position, a seat index and its label. *)
Record Position : Type := { seat : nat; label : string }.

(** Modelled from the spec: the outcome of the Bid/Amount Reader for one
    seat: "a parsed numeric amount or no amount when the region is visually
    empty"; a failed read is "unknown amount". *)
Inductive BidRead : Type :=
| NoAmount : BidRead
| Unknown : BidRead
| Amount : Q -> BidRead.

(** Modelled from the spec: a BidReading, a seat index and what was read
    there; the reader's confidence decides between a number and "unknown"
    and is not carried further. *)
Record BidReading : Type := { bid_seat : nat; bid_amount : BidRead }.

(** Modelled from the spec: the action kinds of a Move. *)
Inductive action_kind : Type := Fold | Check | Call | Raise.

(** Modelled from the spec: a Move, "{seat, action kind (fold/check/call/
    raise), amount (optional), street}". *)
Record Move : Type := {
  move_seat : nat;
  move_kind : action_kind;
  move_amount : option Q;
  move_street : street
}.

(** Modelled from the spec: the GameState of one table.  The per-street
    Move lists are kept as one list in order of commitment, each Move naming
    its street ([street_moves] gives a street's list); the solver link is
    computed from the cards and positions and is no state of its own. *)
Record GameState : Type := {
  hole_cards : list Card;
  community_cards : list Card;
  positions : list Position;
  current_street : option street;
  history : list Move;
  amounts : list BidReading;
  epoch : nat;
  last_update : N
}.

(** Modelled from the spec: what template matching and the bid reader
    report for one frame: the accepted cards and positions, the bid readings
    and the seats whose action-button region shows a fold marker. *)
Record Observation : Type := {
  obs_hole : list Card;
  obs_community : list Card;
  obs_positions : list Position;
  obs_bids : list BidReading;
  obs_folds : list nat
}.

(** Modelled from the spec: the state of the missing tracker: the
    GameState it exposes, and what it holds back: the pending candidate
    moves and the previous cycle's readings. *)
Record Tracker : Type := {
  game : GameState;
  pending : list Move;
  prev_bids : list BidReading
}.

(** ** Equality tests *)

Definition street_eqb (a b : street) : bool :=
  match a, b with
  | Preflop, Preflop | Flop, Flop | Turn, Turn | River, River => true
  | _, _ => false
  end.

Definition suit_eqb (a b : suit) : bool :=
  match a, b with
  | Spades, Spades | Hearts, Hearts | Diamonds, Diamonds | Clubs, Clubs => true
  | _, _ => false
  end.

Definition kind_eqb (a b : action_kind) : bool :=
  match a, b with
  | Fold, Fold | Check, Check | Call, Call | Raise, Raise => true
  | _, _ => false
  end.

(** Two cards show the same face. *)
Definition same_face (a b : Card) : bool :=
  Nat.eqb (rank a) (rank b) && suit_eqb (card_suit a) (card_suit b).

(** Modelled from the spec: the matches of a frame are "a set of
    DetectedCard/Position matches": the card of a slot is looked up in them,
    and the order they are reported in plays no part. *)
Fixpoint card_at (cards : list Card) (s : nat) : option Card :=
  match cards with
  | [] => None
  | c :: rest => if Nat.eqb (slot c) s then Some c else card_at rest s
  end.

(** Modelled from the spec: two positions that cannot both hold: one seat
    with two labels, or one label (the button, say) at two seats. *)
Definition clash (p q : Position) : bool :=
  xorb (Nat.eqb (seat p) (seat q)) (String.eqb (label p) (label q)).

(** Modelled from the spec: an "identical reading"; two readings are
    identical when both are empty, both failed, or both are the same
    number. *)
Definition bid_eqb (a b : BidRead) : bool :=
  match a, b with
  | NoAmount, NoAmount => true
  | Unknown, Unknown => true
  | Amount x, Amount y => Qeq_bool x y
  | _, _ => false
  end.

Definition amount_eqb (a b : option Q) : bool :=
  match a, b with
  | None, None => true
  | Some x, Some y => Qeq_bool x y
  | _, _ => false
  end.

Definition move_eqb (a b : Move) : bool :=
  Nat.eqb (move_seat a) (move_seat b) && kind_eqb (move_kind a) (move_kind b)
  && amount_eqb (move_amount a) (move_amount b)
  && street_eqb (move_street a) (move_street b).

Definition mem_move (m : Move) (l : list Move) : bool := existsb (move_eqb m) l.

(** ** Bid/Amount Reader (specification, section 4.3) *)

Definition digit_of (c : ascii) : option N :=
  let n := N_of_ascii c in
  if N.leb 48 n && N.leb n 57 then Some (n - 48)%N else None.

Definition is_point (c : ascii) : bool := N.eqb (N_of_ascii c) 46.

(** The recognised characters are the digits and the decimal point. *)
Definition recognised (c : ascii) : bool :=
  match digit_of c with Some _ => true | None => is_point c end.

(** Reads digits with at most one decimal point: [acc / den] is the value
    read so far, [digits] counts the digits seen. *)
Fixpoint read_digits (cs : list ascii) (acc : N) (den : positive)
  (after_point : bool) (digits : nat) : BidRead :=
  match cs with
  | [] =>
      match digits with
      | 0 => Unknown
      | S _ => Amount (Qred (Z.of_N acc # den))
      end
  | c :: rest =>
      match digit_of c with
      | Some d =>
          read_digits rest (acc * 10 + d)%N
            (if after_point then (den * 10)%positive else den) after_point (S digits)
      | None =>
          if is_point c && negb after_point
          then read_digits rest acc den true digits
          else Unknown
      end
  end.

(** Modelled from the spec: the Bid/Amount Reader on the characters
    recognised in a seat's region: no amount for an empty region, the number
    read, and "unknown" for anything that is no number; "failed reads do not
    throw", the function is total. *)
Definition read_amount (text : string) : BidRead :=
  match text with
  | EmptyString => NoAmount
  | _ => read_digits (list_ascii_of_string text) 0 1 false 0
  end.

(** ** Game State Tracker (specification, section 4.4) *)

(** Modelled from the spec: the seats of a table, "seat index 1-6". *)
Definition seats : list nat := [1; 2; 3; 4; 5; 6].

(** Modelled from the spec: a seat's reading in a list of readings; a
    seat without one shows no amount ("seat not betting"). *)
Fixpoint reading (bids : list BidReading) (i : nat) : BidRead :=
  match bids with
  | [] => NoAmount
  | b :: rest => if Nat.eqb (bid_seat b) i then bid_amount b else reading rest i
  end.

(** Modelled from the spec: the ordered Move list of one street. *)
Definition street_moves (gs : GameState) (st : street) : list Move :=
  filter (fun m => street_eqb (move_street m) st) (history gs).

(** Modelled from the spec: "a regression in count (card count drops)",
    against the community cards of the previous cycle. *)
Definition count_regressed (gs : GameState) (o : Observation) : bool :=
  Nat.ltb (List.length (obs_community o)) (List.length (community_cards gs)).

(** Modelled from the spec: "hole cards ... change outright between
    cycles": a slot shows another card than the one known for it.  A slot
    without an accepted match is "no card detected", "a valid, common
    outcome", and a missing read "degrades gracefully to unknown for that
    field only": it is no change. *)
Definition hole_changed (gs : GameState) (o : Observation) : bool :=
  existsb
    (fun c =>
       match card_at (hole_cards gs) (slot c) with
       | Some k => negb (same_face c k)
       | None => false
       end)
    (obs_hole o).

(** Modelled from the spec: "seat positions change outright between
    cycles": a position that was read cannot hold together with one that is
    known; a seat or a label that was not read is no change. *)
Definition positions_changed (gs : GameState) (o : Observation) : bool :=
  existsb (fun p => existsb (clash p) (positions gs)) (obs_positions o).

(** Modelled from the spec: the new-hand decision of the missing tracker,
    as section 4.4 designs it.  "A regression in count is the trigger for a
    new-hand reset"; "a new-game detection is additionally signaled when hole
    cards or seat positions change outright between cycles, even without a
    community-card regression -- both signals are OR'd together to decide
    whether to reset."  Section 8 names the count and the hole cards and
    adds that "no other condition does"; the two sections disagree on the
    seat positions, and no tracker code is at hand to tell which of them the
    engine follows. *)
Definition new_hand (gs : GameState) (o : Observation) : bool :=
  count_regressed gs o || (hole_changed gs o || positions_changed gs o).

(** Modelled from the spec: the cards known after a cycle.  The cards the
    cycle read replace what was known when they are a change; otherwise
    they are added to it, a slot that was not read keeping its card. *)
Definition known_cards (gs : GameState) (o : Observation) : list Card :=
  if hole_changed gs o then obs_hole o
  else obs_hole o
       ++ filter (fun k => match card_at (obs_hole o) (slot k) with
                           | Some _ => false
                           | None => true
                           end)
            (hole_cards gs).

(** Modelled from the spec: the positions known after a cycle, likewise. *)
Definition known_positions (gs : GameState) (o : Observation) : list Position :=
  if positions_changed gs o then obs_positions o
  else obs_positions o
       ++ filter (fun q => negb (existsb (fun p => Nat.eqb (seat p) (seat q))
                                   (obs_positions o)))
            (positions gs).

(** Modelled from the spec: the new-hand reset.  "A new hand epoch begins,
    all per-hand state (Move history, street) is cleared, and only hole
    cards / positions persist forward as the seed of the next epoch." *)
Definition reset (t : Tracker) : Tracker :=
  let gs := game t in
  {| game := {| hole_cards := hole_cards gs;
                community_cards := [];
                positions := positions gs;
                current_street := None;
                history := [];
                amounts := [];
                epoch := S (epoch gs);
                last_update := last_update gs |};
     pending := [];
     prev_bids := [] |}.

(** Modelled from the spec: the amount shown for each seat after a cycle.
    A reading replaces the committed amount once the previous cycle read the
    same; "unknown must not overwrite a previously known amount unless
    corroborated by a subsequent identical reading". *)
Definition corroborate (prev cur committed : list BidReading) : list BidReading :=
  map (fun i =>
         {| bid_seat := i;
            bid_amount := if bid_eqb (reading cur i) (reading prev i)
                          then reading cur i else reading committed i |})
      seats.

Section Tracking.

(** The move reconstruction rule: the candidate moves one cycle's readings
    give against the committed state.  The tracker's bookkeeping below does
    not depend on how candidates are inferred; [reconstruct_moves], after
    this section, is the rule of section 4.4. *)
Variable infer : GameState -> Observation -> list Move.

(** Modelled from the spec: the state a cycle works on: the tracker's,
    reset when the observation starts a new hand. *)
Definition prepare (t : Tracker) (o : Observation) : Tracker :=
  if new_hand (game t) o then reset t else t.

(** Modelled from the spec: the candidate moves of a cycle, inferred
    against the committed state. *)
Definition candidates (t : Tracker) (o : Observation) : list Move :=
  infer (game (prepare t o)) o.

(** Modelled from the spec: one detection cycle of the missing tracker.
    "A move is only committed (appended to the street's ordered Move list)
    once confirmed stable across two consecutive detection cycles; until
    confirmed it is held as a pending candidate and is never exposed
    externally." *)
Definition track (t : Tracker) (o : Observation) (now : N) : Tracker :=
  let t0 := prepare t o in
  let gs := game t0 in
  let cands := infer gs o in
  let confirmed := filter (fun m => mem_move m (pending t0)) cands in
  {| game := {| hole_cards := known_cards gs o;
                community_cards := obs_community o;
                positions := known_positions gs o;
                current_street := Street (List.length (obs_community o));
                history := history gs ++ confirmed;
                amounts := corroborate (prev_bids t0) (obs_bids o) (amounts gs);
                epoch := epoch gs;
                last_update := now |};
     pending := filter (fun m => negb (mem_move m (pending t0))) cands;
     prev_bids := obs_bids o |}.

(** Modelled from the spec: a run of detection cycles, each an
    observation and its time. *)
Fixpoint track_all (t : Tracker) (cycles : list (Observation * N)) : Tracker :=
  match cycles with
  | [] => t
  | (o, now) :: rest => track_all (track t o now) rest
  end.

End Tracking.

(** Modelled from the spec: the tracker before its first cycle, awaiting
    hole cards, in epoch 0 with nothing committed. *)
Definition initial : Tracker :=
  {| game := {| hole_cards := []; community_cards := []; positions := [];
                current_street := None; history := []; amounts := [];
                epoch := 0; last_update := 0%N |};
     pending := [];
     prev_bids := [] |}.

(** ** Move reconstruction (specification, section 4.4) *)

Definition Qlt_bool (a b : Q) : bool := negb (Qle_bool b a).

(** Modelled from the spec: the amount a seat has committed, when it is
    known; a seat showing none has committed nothing ("seat not betting").
    The tracker "must treat unknown distinctly from zero": an unknown
    amount is no number to compare with. *)
Definition committed_amount (gs : GameState) (i : nat) : option Q :=
  match reading (amounts gs) i with
  | Amount a => Some a
  | NoAmount => Some 0%Q
  | Unknown => None
  end.

(** Modelled from the spec: the active seats; a seat is active until a
    fold of it is committed in the hand. *)
Definition active (gs : GameState) (i : nat) : bool :=
  negb (existsb (fun m => Nat.eqb (move_seat m) i && kind_eqb (move_kind m) Fold)
          (history gs)).

(** Modelled from the spec: "the current street's minimum-to-call,
    computed as the maximum committed amount among active seats".  Where an
    active seat's committed amount is unknown the maximum is unknown too:
    the unknown amount is not counted as zero. *)
Definition min_to_call (gs : GameState) : option Q :=
  fold_right
    (fun i acc =>
       if active gs i
       then match committed_amount gs i, acc with
            | Some c, Some m => Some (if Qle_bool m c then c else m)
            | _, _ => None
            end
       else acc)
    (Some 0%Q) seats.

Section Reconstruction.

(** Whether the cycle closes the street's betting round.  The
    specification names the street end and leaves its detection open
    (section 9). *)
Variable street_end : GameState -> Observation -> bool.

(** Modelled from the spec: the candidate move of one seat.  "A seat whose
    amount increases produces a raise/call candidate move (disambiguated by
    comparing against the current street's minimum-to-call); a seat whose
    action-button region shows a fold marker and whose bid does not change
    produces a fold; a seat with no bid change and no fold marker at
    street-end produces a check."  A failed read gives no candidate, and
    neither does an amount read where the committed one is unknown (there
    is nothing it increases) or where the minimum-to-call is (a raise is not
    told from a call). *)
Definition candidate (gs : GameState) (o : Observation) (i : nat) : option Move :=
  match Street (List.length (obs_community o)) with
  | None => None
  | Some st =>
      if negb (active gs i) then None
      else
        let r := reading (obs_bids o) i in
        let idle :=
          if bid_eqb r (reading (amounts gs) i) then
            if existsb (Nat.eqb i) (obs_folds o)
            then Some {| move_seat := i; move_kind := Fold;
                         move_amount := None; move_street := st |}
            else if street_end gs o
            then Some {| move_seat := i; move_kind := Check;
                         move_amount := None; move_street := st |}
            else None
          else None in
        match r with
        | Amount a =>
            match committed_amount gs i with
            | Some c =>
                if Qlt_bool c a
                then match min_to_call gs with
                     | Some m =>
                         Some {| move_seat := i;
                                 move_kind := if Qlt_bool m a then Raise else Call;
                                 move_amount := Some a; move_street := st |}
                     | None => None
                     end
                else idle
            | None => None
            end
        | NoAmount => idle
        | Unknown => None
        end
  end.

(** Modelled from the spec: the candidates of a cycle, seat by seat. *)
Definition reconstruct_moves (gs : GameState) (o : Observation) : list Move :=
  flat_map (fun i => match candidate gs o i with Some m => [m] | None => [] end) seats.

End Reconstruction.

(** ** From the recognition stages to the tracker (sections 4.2 and 4.3) *)

(** Modelled from the spec: what the recognition stages hand over for one
    frame: the accepted cards and positions, the seats whose action-button
    region shows a fold marker, and for each seat the characters recognised
    in its bid region after the fixed preprocessing. *)
Record Readout : Type := {
  seen_hole : list Card;
  seen_community : list Card;
  seen_positions : list Position;
  seen_text : list (nat * string);
  seen_folds : list nat
}.

(** Modelled from the spec: the characters recognised for a seat; none
    for a seat whose region is "visually empty". *)
Fixpoint seat_text (texts : list (nat * string)) (i : nat) : string :=
  match texts with
  | [] => EmptyString
  | (j, text) :: rest => if Nat.eqb j i then text else seat_text rest i
  end.

(** Modelled from the spec: the Bid/Amount Reader over the seats of a
    table, one BidReading for each. *)
Definition read_bids (texts : list (nat * string)) : list BidReading :=
  map (fun i => {| bid_seat := i; bid_amount := read_amount (seat_text texts i) |})
      seats.

(** Modelled from the spec: the observation the tracker is given: "their
    outputs feed the Game State Tracker". *)
Definition observe (r : Readout) : Observation :=
  {| obs_hole := seen_hole r;
     obs_community := seen_community r;
     obs_positions := seen_positions r;
     obs_bids := read_bids (seen_text r);
     obs_folds := seen_folds r |}.

End Engine.

(* ================================================================== *)
(** * Part I.c  The client page: rendering, polling and its lifecycle *)
(* ================================================================== *)

Module JsMore.
Import Js.

(** [s.includes(p)]. *)
Fixpoint includes (s p : jsstring) : bool :=
  startsWith s p
  || match s with
     | [] => false
     | _ :: rest => includes rest p
     end.

(** ToString of a non-negative integer (an array length, an array index, a
    response status). *)
Definition decimal_nat (n : nat) : jsstring :=
  lit (NilEmpty.string_of_uint (Nat.to_uint n)).

(** [s.padStart(width, c)] for a one-unit filler [c]. *)
Definition padStart (s : jsstring) (width : nat) (c : code_unit) : jsstring :=
  repeat c (width - List.length s) ++ s.

(** Truthiness of a scalar. *)
Definition truthy_scalar (v : scalar) : bool :=
  match v with
  | SUndefined => false
  | SNull => false
  | SBool b => b
  | SNumber x => negb (PrimFloat.eqb x 0%float || PrimFloat.is_nan x)
  | SString [] => false
  | SString (_ :: _) => true
  end.

(** [[...new Set(items)]] on strings: the first occurrences, in order. *)
Fixpoint unique_from (seen items : list jsstring) : list jsstring :=
  match items with
  | [] => []
  | x :: rest =>
      if existsb (jsstring_eqb x) seen then unique_from seen rest
      else x :: unique_from (x :: seen) rest
  end.

Definition unique (items : list jsstring) : list jsstring := unique_from [] items.

Definition green_circle : jsstring := [55357%N; 57314%N].   (* U+1F7E2 *)
Definition red_circle : jsstring := [55357%N; 56628%N].     (* U+1F534 *)

End JsMore.

Module ClientPage.
Import Js Client JsMore.

(** ** The page and the script's globals *)

(** The elements the script writes to.  [backendInfo] may be missing from
    the page (the script tests for it); the others are taken to exist. *)
Record Dom : Type := {
  connectionStatus_className : jsstring;
  connectionStatus_textContent : jsstring;
  statusIndicator : jsstring;
  statusText : jsstring;
  status : jsstring;
  content : jsstring;
  (** whether showUpdateIndicator has put the class [show] on the indicator;
      the timer that takes it off a second later is not followed *)
  updateIndicator : bool;
  backendInfo : option jsstring
}.

(** The globals of the script, the live interval timers of the page and
    the number of detection requests sent so far. *)
Record World : Type := {
  config : Config;
  previousDetections : option json;
  pollingInterval : option nat;
  pollingActive : bool;
  lastETag : field jsstring;
  dom : Dom;
  intervals : list nat;
  next_handle : nat;
  requests : nat
}.

Definition with_dom (d : Dom) (w : World) : World :=
  {| config := config w; previousDetections := previousDetections w;
     pollingInterval := pollingInterval w; pollingActive := pollingActive w;
     lastETag := lastETag w; dom := d; intervals := intervals w;
     next_handle := next_handle w; requests := requests w |}.

Definition with_content (html : jsstring) (d : Dom) : Dom :=
  {| connectionStatus_className := connectionStatus_className d;
     connectionStatus_textContent := connectionStatus_textContent d;
     statusIndicator := statusIndicator d; statusText := statusText d;
     status := status d; content := html;
     updateIndicator := updateIndicator d; backendInfo := backendInfo d |}.

Definition updateConnectionStatus (state message : jsstring) (d : Dom) : Dom :=
  {| connectionStatus_className := lit "connection-status " ++ state;
     connectionStatus_textContent := message;
     statusIndicator := statusIndicator d; statusText := statusText d;
     status := status d; content := content d;
     updateIndicator := updateIndicator d; backendInfo := backendInfo d |}.

Definition updateClientStatus (isOnline : bool) (d : Dom) : Dom :=
  {| connectionStatus_className := connectionStatus_className d;
     connectionStatus_textContent := connectionStatus_textContent d;
     statusIndicator := if isOnline then green_circle else red_circle;
     statusText := if isOnline then lit "Online" else lit "Offline";
     status := status d; content := content d;
     updateIndicator := updateIndicator d; backendInfo := backendInfo d |}.

Definition showUpdateIndicator (d : Dom) : Dom :=
  {| connectionStatus_className := connectionStatus_className d;
     connectionStatus_textContent := connectionStatus_textContent d;
     statusIndicator := statusIndicator d; statusText := statusText d;
     status := status d; content := content d;
     updateIndicator := true; backendInfo := backendInfo d |}.

Section Page.

Variable Number_toString : float -> jsstring.
Variable StringToNumber : jsstring -> float.
Variable toLocaleTimeString : scalar -> jsstring.
(** The global [clientId], read from [window.CLIENT_ID]. *)
Variable clientId : scalar.
(** The parsed object a detection record was read from, which is what
    JSON.stringify sees of it. *)
Variable source_object : Detection -> json.
(** The message of the TypeError the host throws on
    [data.detections.length] when [data.detections] is undefined or null. *)
Variable no_length_message : jsstring.

#[local] Abbreviation show := (ToString Number_toString).

(** [data.detections] as JSON.stringify sees it. *)
Definition detections_json (detections : field (list Detection)) : option json :=
  match detections with
  | Absent => None
  | Null => Some JNull
  | Val l => Some (JArray (map source_object l))
  end.

(** ToString of a parsed JSON value, as a template literal applies it: an
    array is its elements joined by commas, null ones left empty, and an
    object is [[object Object]]. *)
Fixpoint json_ToString (v : json) : jsstring :=
  match v with
  | JNull => lit "null"
  | JBool true => lit "true"
  | JBool false => lit "false"
  | JNumber x => Number_toString x
  | JString s => s
  | JArray l =>
      join (lit ",")
        (map (fun e => match e with
                       | JNull => []
                       | _ => json_ToString e
                       end) l)
  | JObject _ => lit "[object Object]"
  end.

(** What [data.detections.length] can be: an array's or a string's length,
    [undefined], or whatever a parsed object holds under [length]. *)
Inductive length_value : Type :=
| LengthIs (n : nat)
| LengthUndefined
| LengthProperty (v : json).

(** [totalTables === n] for [n] 0 or 1. *)
Definition length_equals (n : nat) (l : length_value) : bool :=
  match l with
  | LengthIs m => Nat.eqb m n
  | LengthUndefined => false
  | LengthProperty (JNumber x) =>
      PrimFloat.eqb x (match n with 0 => 0%float | _ => 1%float end)
  | LengthProperty _ => false
  end.

Definition length_text (l : length_value) : jsstring :=
  match l with
  | LengthIs n => decimal_nat n
  | LengthUndefined => lit "undefined"
  | LengthProperty v => json_ToString v
  end.

(** updateStatus, for whatever [totalTables] is. *)
Definition status_line (lastUpdate : scalar) (totalTables : length_value) (d : Dom) : Dom :=
  if truthy_scalar lastUpdate then
    let tablesText := if length_equals 1 totalTables then lit "table" else lit "tables" in
    {| connectionStatus_className := connectionStatus_className d;
       connectionStatus_textContent := connectionStatus_textContent d;
       statusIndicator := statusIndicator d; statusText := statusText d;
       status := lit "Last update: " ++ toLocaleTimeString lastUpdate ++ lit " - "
                 ++ length_text totalTables ++ lit " " ++ tablesText
                 ++ lit " (Real-time)";
       content := content d;
       updateIndicator := updateIndicator d; backendInfo := backendInfo d |}
  else d.

(** updateStatus with the length of an array. *)
Definition updateStatus (lastUpdate : scalar) (totalTables : nat) (d : Dom) : Dom :=
  status_line lastUpdate (LengthIs totalTables) d.

Definition updateTimerDisplay (c : Config) (d : Dom) : Dom :=
  match backendInfo d with
  | Some _ =>
      {| connectionStatus_className := connectionStatus_className d;
         connectionStatus_textContent := connectionStatus_textContent d;
         statusIndicator := statusIndicator d; statusText := statusText d;
         status := status d; content := content d;
         updateIndicator := updateIndicator d;
         backendInfo := Some (lit "every " ++ show (backend_capture_interval c)) |}
  | None => d
  end.

(** The first branch of renderCards: no tables. *)
Definition no_tables_detected (d : Dom) : Dom :=
  updateClientStatus false
    (with_content
       (tpl "<div class=`error`>No tables detected for client "
        ++ show clientId ++ tpl "</div>") d).

(** renderCards.  The markup assigned to [content.innerHTML]; the timer
    that strips the update classes two seconds later is not followed. *)
Definition renderCards (c : Config) (detections : field (list Detection))
  (isUpdate : bool) (d : Dom) : Dom :=
  match detections with
  | Val (t :: ts) =>
      let html :=
        join_empty
          (map (fun detection =>
                  createTableContainer Number_toString StringToNumber
                    toLocaleTimeString c detection isUpdate)
               (t :: ts)) in
      with_content html (updateClientStatus true d)
  | _ => no_tables_detected d
  end.

(** ** Polling *)

(** A value of [data.detections] that is neither [undefined], [null] nor
    an array. *)
Inductive other : Type :=
| OBool (b : bool)
| ONumber (x : float)
| OString (s : jsstring)
| OObject (members : list (jsstring * json)).

Definition json_of_other (v : other) : json :=
  match v with
  | OBool b => JBool b
  | ONumber x => JNumber x
  | OString s => JString s
  | OObject members => JObject members
  end.

Definition truthy_other (v : other) : bool :=
  match v with
  | OBool b => b
  | ONumber x => negb (PrimFloat.eqb x 0%float || PrimFloat.is_nan x)
  | OString [] => false
  | OString (_ :: _) => true
  | OObject _ => true
  end.

(** The value a parsed object holds under a name (its names are distinct). *)
Fixpoint property (members : list (jsstring * json)) (name : jsstring) : option json :=
  match members with
  | [] => None
  | (k, v) :: rest => if jsstring_eqb k name then Some v else property rest name
  end.

(** [v.length]. *)
Definition length_of (v : other) : length_value :=
  match v with
  | OBool _ => LengthUndefined
  | ONumber _ => LengthUndefined
  | OString s => LengthIs (List.length s)
  | OObject members =>
      match property members (lit "length") with
      | Some l => LengthProperty l
      | None => LengthUndefined
      end
  end.

(** The test [!detections || detections.length === 0] of renderCards. *)
Definition shows_no_tables (v : other) : bool :=
  negb (truthy_other v) || length_equals 0 (length_of v).

(** renderCards on such a value.  Where the test holds the page reads
    that no tables were detected; where it fails, the client is set online
    and [detections.map], which is no function, throws: there is no result
    then. *)
Definition renderCards_other (v : other) (d : Dom) : option Dom :=
  if shows_no_tables v then Some (no_tables_detected d) else None.

(** What [response.json()] gives: a rejection, or the parsed body, of
    which the script reads [last_update] and [detections].  A body can be
    the value null, on which reading [data.detections] throws; its
    detections can be a value that is no array; and they can be an array
    that renderCards throws on: after records that are built, [bad] is the
    first element on which createTableContainer throws (the value null, say,
    or a record one of whose street entries has no [moves]), and the elements
    [after] it are never looked at.  [message] is the message of the error
    the host throws then. *)
Inductive body : Type :=
| Unparseable (message : jsstring)
| Parsed (last_update : scalar) (detections : field (list Detection))
| ParsedNull (message : jsstring)
| ParsedOther (last_update : scalar) (detections : other) (message : jsstring)
| ParsedUnrenderable (last_update : scalar) (before : list Detection) (bad : json)
    (after : list json) (message : jsstring).

(** [data.detections] of a body that was parsed to an object, as
    JSON.stringify sees it. *)
Definition body_detections (b : body) : option json :=
  match b with
  | Parsed _ detections => detections_json detections
  | ParsedOther _ v _ => Some (json_of_other v)
  | ParsedUnrenderable _ before bad after _ =>
      Some (JArray (map source_object before ++ bad :: after))
  | _ => None
  end.

(** Whether the statements that follow [response.json()] run to their end
    on a body: its detections are an array of records that are built, or a
    value on which renderCards reads that there are no tables. *)
Definition runs_through (b : body) : bool :=
  match b with
  | Parsed _ (Val _) => true
  | ParsedOther _ v _ => shows_no_tables v
  | _ => false
  end.

(** Whether renderCards reads that there are no tables. *)
Definition no_tables (b : body) : bool :=
  match b with
  | Parsed _ (Val []) => true
  | ParsedOther _ v _ => shows_no_tables v
  | _ => false
  end.

(** What [fetch] gives: a rejection, or a response with its status, status
    text, ETag header ([Null] when the header is missing) and body. *)
Inductive fetched : Type :=
| Rejected (message : jsstring)
| Response (status : nat) (statusText : jsstring) (ETag : field jsstring) (b : body).

(** [response.ok]: a status from 200 to 299. *)
Definition ok (status : nat) : bool := Nat.leb 200 status && Nat.leb status 299.

(** The If-None-Match header of a request, if it carries one. *)
Definition if_none_match (w : World) : option jsstring :=
  match lastETag w with
  | Val (c :: s) => Some (c :: s)
  | _ => None
  end.

(** The [catch] block of pollForClientUpdates. *)
Definition poll_failed (message : jsstring) (w : World) : World :=
  let d := updateConnectionStatus (lit "disconnected")
             (red_circle ++ lit " Connection Error") (dom w) in
  let d := updateClientStatus false d in
  let d :=
    if includes message (lit "404") then
      with_content
        (tpl "<div class=`error`>Client " ++ show clientId
         ++ tpl " not found on server</div>") d
    else d in
  with_dom d w.

Definition with_lastETag (e : field jsstring) (w : World) : World :=
  {| config := config w; previousDetections := previousDetections w;
     pollingInterval := pollingInterval w; pollingActive := pollingActive w;
     lastETag := e; dom := dom w; intervals := intervals w;
     next_handle := next_handle w; requests := requests w |}.

Definition with_previousDetections (p : option json) (w : World) : World :=
  {| config := config w; previousDetections := p;
     pollingInterval := pollingInterval w; pollingActive := pollingActive w;
     lastETag := lastETag w; dom := dom w; intervals := intervals w;
     next_handle := next_handle w; requests := requests w |}.

(** pollForClientUpdates from the point where [fetch] settles.  The
    statements of one call run here without another call in between. *)
Definition pollForClientUpdates (w : World) (r : fetched) : World :=
  match r with
  | Rejected message => poll_failed message w
  | Response status statusText ETag b =>
      if Nat.eqb status 304 then
        with_dom
          (updateClientStatus true
             (updateConnectionStatus (lit "connected")
                (green_circle ++ lit " Connected (No changes)") (dom w))) w
      else if negb (ok status) then
        poll_failed (lit "HTTP " ++ decimal_nat status ++ lit ": " ++ statusText) w
      else
        let w := with_lastETag ETag w in
        match b with
        | Unparseable message => poll_failed message w
        | Parsed last_update detections =>
            let hasChanges :=
              detectChanges Number_toString (previousDetections w)
                (detections_json detections) in
            let w := if hasChanges then with_dom (showUpdateIndicator (dom w)) w else w in
            match detections with
            | Val l =>
                let d := updateStatus last_update (List.length l) (dom w) in
                let d := renderCards (config w) detections hasChanges d in
                let w := with_previousDetections (detections_json detections) w in
                let d := updateConnectionStatus (lit "connected")
                           (green_circle ++ lit " Connected") d in
                with_dom (updateClientStatus true d) w
            | _ => poll_failed no_length_message w
            end
        | ParsedNull message => poll_failed message w
        | ParsedOther last_update v message =>
            let hasChanges :=
              detectChanges Number_toString (previousDetections w)
                (Some (json_of_other v)) in
            let w := if hasChanges then with_dom (showUpdateIndicator (dom w)) w else w in
            let d := status_line last_update (length_of v) (dom w) in
            match renderCards_other v d with
            | Some d =>
                let w := with_previousDetections (Some (json_of_other v)) w in
                let d := updateConnectionStatus (lit "connected")
                           (green_circle ++ lit " Connected") d in
                with_dom (updateClientStatus true d) w
            | None => poll_failed message (with_dom (updateClientStatus true d) w)
            end
        | ParsedUnrenderable last_update before bad after message =>
            let hasChanges :=
              detectChanges Number_toString (previousDetections w)
                (Some (JArray (map source_object before ++ bad :: after))) in
            let w := if hasChanges then with_dom (showUpdateIndicator (dom w)) w else w in
            let d := updateStatus last_update
                       (List.length before + S (List.length after)) (dom w) in
            poll_failed message (with_dom (updateClientStatus true d) w)
        end
  end.

(** loadInitialData from the point where [fetch] settles; its [catch]
    block only logs, so that what was written to the page before a throw
    stays. *)
Definition loadInitialData (w : World) (r : fetched) : World :=
  match r with
  | Response status _ _ b =>
      if ok status then
        match b with
        | Parsed last_update (Val l) =>
            let d := updateStatus last_update (List.length l) (dom w) in
            let d := renderCards (config w) (Val l) false d in
            with_previousDetections (detections_json (Val l)) (with_dom d w)
        | ParsedOther last_update v _ =>
            let d := status_line last_update (length_of v) (dom w) in
            match renderCards_other v d with
            | Some d => with_previousDetections (Some (json_of_other v)) (with_dom d w)
            | None => with_dom (updateClientStatus true d) w
            end
        | ParsedUnrenderable last_update before bad after _ =>
            let d := updateStatus last_update
                       (List.length before + S (List.length after)) (dom w) in
            with_dom (updateClientStatus true d) w
        | _ => w
        end
      else w
  | _ => w
  end.

(** What the config request gives where loadConfig returns: every answer
    but an ok response whose body is the JSON value null, which
    [config_reply] below adds. *)
Inductive config_body : Type :=
| ConfigUnparseable (message : jsstring)
| ConfigParsed (c : Config).

Inductive config_fetched : Type :=
| ConfigRejected (message : jsstring)
| ConfigResponse (status : nat) (b : config_body).

Definition with_config (c : Config) (w : World) : World :=
  {| config := c; previousDetections := previousDetections w;
     pollingInterval := pollingInterval w; pollingActive := pollingActive w;
     lastETag := lastETag w; dom := dom w; intervals := intervals w;
     next_handle := next_handle w; requests := requests w |}.

(** The [catch] block of loadConfig. *)
Definition config_failed (message : jsstring) (w : World) : World :=
  let d := with_content (tpl "<div class=`error`>Error: " ++ message ++ tpl "</div>")
             (dom w) in
  let d := updateConnectionStatus (lit "disconnected")
             (red_circle ++ lit " Client Not Found") d in
  with_dom (updateTimerDisplay (config w) d) w.

(** loadConfig, on the answers on which it returns. *)
Definition loadConfig (w : World) (r : config_fetched) : World :=
  match r with
  | ConfigRejected message => config_failed message w
  | ConfigResponse status b =>
      if negb (ok status) then
        config_failed
          (lit "Client " ++ show clientId ++ lit " not found (HTTP "
           ++ decimal_nat status ++ lit ")") w
      else
        match b with
        | ConfigUnparseable message => config_failed message w
        | ConfigParsed c =>
            let w := with_config c w in
            with_dom (updateTimerDisplay (config w) (dom w)) w
        end
  end.

(** ** The polling lifecycle *)

(** startClientPolling: the first poll's request goes out at once and an
    interval timer is set for the later ones. *)
Definition startClientPolling (w : World) : World :=
  if pollingActive w then w
  else
    {| config := config w; previousDetections := previousDetections w;
       pollingInterval := Some (next_handle w);
       pollingActive := true;
       lastETag := lastETag w;
       dom := updateConnectionStatus (lit "connecting")
                (link_symbol ++ lit " Connecting...") (dom w);
       intervals := next_handle w :: intervals w;
       next_handle := S (next_handle w);
       requests := S (requests w) |}.

(** stopClientPolling; [if (pollingInterval)] holds for a handle other
    than 0. *)
Definition stopClientPolling (w : World) : World :=
  let cleared :=
    match pollingInterval w with
    | Some (S h) => (filter (fun i => negb (Nat.eqb i (S h))) (intervals w), None)
    | other => (intervals w, other)
    end in
  {| config := config w; previousDetections := previousDetections w;
     pollingInterval := snd cleared;
     pollingActive := false;
     lastETag := lastETag w;
     dom := updateClientStatus false
              (updateConnectionStatus (lit "disconnected")
                 (red_circle ++ lit " Disconnected") (dom w));
     intervals := fst cleared;
     next_handle := next_handle w;
     requests := requests w |}.

(** What can happen to the page once it is loaded. *)
Inductive event : Type :=
| VisibilityChange (hidden : bool)
| PageShow (persisted : bool)
| BeforeUnload
| IntervalFires (handle : nat)
| Settles (r : fetched).

Definition with_requests (n : nat) (w : World) : World :=
  {| config := config w; previousDetections := previousDetections w;
     pollingInterval := pollingInterval w; pollingActive := pollingActive w;
     lastETag := lastETag w; dom := dom w; intervals := intervals w;
     next_handle := next_handle w; requests := n |}.

(** The listeners of the script, the interval callback and the
    continuation of a poll whose request settles. *)
Definition handle (w : World) (e : event) : World :=
  match e with
  | VisibilityChange hidden =>
      if negb hidden && negb (pollingActive w) then startClientPolling w
      else if hidden && pollingActive w then stopClientPolling w
      else w
  | PageShow persisted =>
      if persisted && negb (pollingActive w) then startClientPolling w else w
  | BeforeUnload =>
      if pollingActive w then stopClientPolling w else w
  | IntervalFires h =>
      if existsb (Nat.eqb h) (intervals w) && pollingActive w
      then with_requests (S (requests w)) w
      else w
  | Settles r => pollForClientUpdates w r
  end.

Definition handle_all (w : World) (events : list event) : World :=
  fold_left handle events w.

(** initialize, given what the config request and the initial data
    request settle to, where loadConfig returns. *)
Definition initialize (w : World) (c : config_fetched) (r : fetched) : World :=
  if negb (truthy_scalar clientId) then
    with_dom (with_content (tpl "<div class=`error`>No client ID specified</div>") (dom w)) w
  else startClientPolling (loadInitialData (loadConfig w c) r).

(** ** The config request answered with null *)

(** What the config request gives, the one answer included on which
    loadConfig does not return: a response whose body is the JSON value
    null. *)
Inductive config_reply : Type :=
| ConfigSettles (c : config_fetched)
| ConfigNull (status : nat).

(** Whether loadConfig rejects.  On an ok response with the body null,
    [config = data] makes the global null; [config.backend_capture_interval]
    then throws in the [try] block (in updateTimerDisplay, or in the log
    after it on a page without backendInfo), and again in the first log of
    the [catch] block, before anything is written to the page. *)
Definition loadConfig_rejects (c : config_reply) : bool :=
  match c with
  | ConfigSettles _ => false
  | ConfigNull status => ok status
  end.

(** loadConfig on any answer: the page it leaves, or nothing where it
    rejects ([config] is null then, a state of the globals that [World],
    whose config is a record, does not hold).  A response that is not ok is
    not read, whatever its body. *)
Definition loadConfig_any (w : World) (c : config_reply) : option World :=
  match c with
  | ConfigSettles c' => Some (loadConfig w c')
  | ConfigNull status =>
      if ok status then None
      else Some (loadConfig w (ConfigResponse status (ConfigUnparseable [])))
  end.

(** initialize on any answer: [await loadConfig()] passes the rejection
    on, and initialize ends there, before loadInitialData and
    startClientPolling. *)
Definition initialize_any (w : World) (c : config_reply) (r : fetched) : option World :=
  if negb (truthy_scalar clientId) then
    Some (with_dom
            (with_content (tpl "<div class=`error`>No client ID specified</div>") (dom w)) w)
  else
    match loadConfig_any w c with
    | Some w' => Some (startClientPolling (loadInitialData w' r))
    | None => None
    end.

End Page.

(** The page before the script runs: the globals as the script declares
    them, no timer set (handles start at 1) and nothing sent. *)
Definition loaded (d : Dom) : World :=
  {| config := Client.config;
     previousDetections := Client.previousDetections;
     pollingInterval := None;
     pollingActive := false;
     lastETag := Null;
     dom := d;
     intervals := [];
     next_handle := 1;
     requests := 0 |}.

(** The polling state is steady: either polling is on and exactly the
    timer whose handle the script holds is live, or polling is off, the
    script holds no handle and no timer is live. *)
Definition one_timer (w : World) : Prop :=
  match pollingInterval w with
  | Some h => pollingActive w = true /\ intervals w = [h] /\ 1 <= h < next_handle w
  | None => pollingActive w = false /\ intervals w = [] /\ 1 <= next_handle w
  end.

End ClientPage.

(* ================================================================== *)
(** * Part I.d  The main page: the grid of all clients' tables *)
(* ================================================================== *)

Module MainPageTables.
Import Js Client JsMore.

(** A detection as the main page reads it: the properties the client page
    reads, and the client it came from. *)
Record Detection : Type := {
  table : Client.Detection;
  client_id : field jsstring
}.

(** The four code units that stand where the client page has the link
    symbol, and those of the icon of the no-clients message. *)
Definition link_literal : jsstring := [240%N; 376%N; 8221%N; 8212%N].
Definition plug_literal : jsstring := [240%N; 376%N; 8221%N; 338%N].

Section Grid.

Variable Number_toString : float -> jsstring.
Variable StringToNumber : jsstring -> float.
Variable toLocaleTimeString : scalar -> jsstring.

#[local] Abbreviation show := (ToString Number_toString).

(** The element built for one card, with the main page's getSuitColor. *)
Definition cardHtml (card : Card) : jsstring :=
  tpl "<div class=`card " ++ MainPage.getSuitColor (display card) ++ tpl "`>"
  ++ display card ++ tpl "</div>".

Definition createPlayerCardsSection (detection : Client.Detection) (isUpdate : bool)
  : jsstring :=
  let cardsClass := if isUpdate then lit "cards-block new-cards" else lit "cards-block" in
  match player_cards detection with
  | Val (c :: cs) =>
      let cardsHtml := join_empty (map cardHtml (c :: cs)) in
      tpl "<div class=`" ++ cardsClass ++ tpl "` onclick=`copyToClipboard('"
      ++ show (player_cards_string detection) ++ tpl "')`>" ++ cardsHtml ++ tpl "</div>"
  | _ => tpl "<div class=`no-cards`>No cards detected</div>"
  end.

Definition createTableCardsSection (config : Config) (detection : Client.Detection)
  (isUpdate : bool) : jsstring :=
  if negb (show_table_cards config) then []
  else
    let cardsClass := if isUpdate then lit "cards-block new-cards" else lit "cards-block" in
    let streetClass :=
      match street detection with
      | Val (c :: s) =>
          if startsWith (c :: s) (lit "ERROR") then lit "street-indicator error"
          else lit "street-indicator"
      | _ => lit "street-indicator"
      end in
    let streetDisplay :=
      match street detection with
      | Val (c :: s) => tpl "<span class=`" ++ streetClass ++ tpl "`>" ++ (c :: s) ++ tpl "</span>"
      | _ => []
      end in
    let cardsHtml :=
      match table_cards detection with
      | Val (c :: cs) =>
          let cards := join_empty (map cardHtml (c :: cs)) in
          tpl "<div class=`" ++ cardsClass ++ tpl "` onclick=`copyToClipboard('"
          ++ show (table_cards_string detection) ++ tpl "')`>" ++ cards ++ tpl "</div>"
      | _ => tpl "<div class=`no-cards`>No cards detected</div>"
      end in
    tpl "
        <div class=`table-cards-column`>
            <div class=`cards-label`>Table Cards: " ++ streetDisplay ++ tpl "</div>
            <div class=`cards-container`>" ++ cardsHtml ++ tpl "</div>
        </div>
    ".

Definition createSolverLinkSection (config : Config) (detection : Client.Detection)
  (isUpdate : bool) : jsstring :=
  if negb (show_solver_link config) || negb (truthy_string (solver_link detection)) then []
  else
    let linkClass :=
      if isUpdate then lit "solver-link-block new-solver-link" else lit "solver-link-block" in
    let href := match solver_link detection with Val s => s | _ => [] end in
    tpl "
        <div class=`cards-section`>
            <div class=`cards-label`>Solver Analysis !!!BETA!!!:</div>
            <div class=`" ++ linkClass ++ tpl "`>
                <a href=`" ++ href ++ tpl "` target=`_blank` class=`solver-link`>
                    Open in FlopHero " ++ link_literal ++ tpl "
                </a>
            </div>
        </div>
    ".

(** createTableContainer of the main page.  Its positions and moves
    sections are built by functions that read, word for word, as those of
    the client page. *)
Definition createTableContainer (config : Config) (detection : Detection)
  (isUpdate : bool) (tableId : jsstring) : jsstring :=
  let tableClass :=
    if isUpdate then lit "table-container updated" else lit "table-container" in
  let tableCardsSection := createTableCardsSection config (table detection) isUpdate in
  let positionsSection :=
    Client.createPositionsSection Number_toString config (table detection) isUpdate in
  let movesSection :=
    Client.createMovesSection Number_toString StringToNumber config (table detection)
      isUpdate in
  let solverLinkSection := createSolverLinkSection config (table detection) isUpdate in
  let mainCardsContent :=
    tpl "
        <div class=`player-cards-column`>
            <div class=`cards-label`>Player Cards:</div>
            <div class=`player-section`>
                " ++ createPlayerCardsSection (table detection) isUpdate ++ tpl "
            </div>
        </div>
    " in
  let mainCardsContent := append_if_truthy mainCardsContent tableCardsSection in
  let mainCardsContent := append_if_truthy mainCardsContent positionsSection in
  let clientId :=
    match client_id detection with
    | Val (c :: s) => c :: s
    | _ => lit "Unknown"
    end in
  let clientLink :=
    match client_id detection with
    | Val (c :: s) => lit "/client/" ++ (c :: s)
    | _ => lit "#"
    end in
  tpl "
        <div class=`" ++ tableClass ++ tpl "`>
            <div class=`client-header`>
                <div class=`client-info`>
                    <a href=`" ++ clientLink ++ tpl "` class=`client-link`>
                        <span class=`client-id`>Client: " ++ clientId ++ tpl "</span>
                    </a>
                    <div class=`table-info`>
                        <span class=`table-id`>Table " ++ tableId ++ tpl "</span>
                        <span class=`window-name-small`>"
  ++ show (window_name (table detection)) ++ tpl "</span>
                    </div>
                </div>
                <div class=`last-update`>Updated: "
  ++ toLocaleTimeString (last_update (table detection)) ++ tpl "</div>
            </div>
            <div class=`main-cards-section`>
                " ++ mainCardsContent ++ tpl "
            </div>
            " ++ movesSection ++ tpl "
            " ++ solverLinkSection ++ tpl "
        </div>
    ".

Definition createNoClientsMessage : jsstring :=
  tpl "
        <div class=`no-clients-container`>
            <div class=`no-clients-header`>
                <div class=`no-clients-icon`>" ++ plug_literal ++ tpl "</div>
                <div class=`no-clients-title`>No Detection Clients Connected</div>
            </div>
            <div class=`no-clients-message`>
                <p>Start a detection client to begin monitoring poker tables.</p>
                <div class=`no-clients-steps`>
                    <div class=`step`>1. Run detection client on machine with poker tables</div>
                    <div class=`step`>2. Configure client to connect to this server</div>
                    <div class=`step`>3. Tables will appear here automatically</div>
                </div>
            </div>
        </div>
    ".

(** [(index + 1).toString().padStart(2, '0')]. *)
Definition tableId (index : nat) : jsstring :=
  padStart (decimal_nat (index + 1)) 2 48%N.

(** The containers of the detections from position [index] on. *)
Fixpoint grid_from (config : Config) (index : nat) (detections : list Detection)
  : jsstring :=
  match detections with
  | [] => []
  | detection :: rest =>
      createTableContainer config detection false (tableId index)
      ++ grid_from config (S index) rest
  end.

Definition createDynamicTablesGrid (config : Config) (detections : list Detection)
  : jsstring :=
  tpl "<div class=`tables-grid`>" ++ grid_from config 0 detections ++ tpl "</div>".

(** What renderCards leaves in the content element: its markup, and
    whether the class [updated] was added to the table containers. *)
Record Rendered : Type := {
  innerHTML : jsstring;
  containers_updated : bool
}.

Definition has_client (detection : Detection) : bool := truthy_string (client_id detection).

Definition renderCards (config : Config) (detections : field (list Detection))
  (isUpdate : bool) : Rendered :=
  let hasClientsWithDetections :=
    match detections with
    | Val (d :: ds) => existsb has_client (d :: ds)
    | _ => false
    end in
  if negb hasClientsWithDetections then
    {| innerHTML := createNoClientsMessage; containers_updated := false |}
  else
    {| innerHTML :=
         createDynamicTablesGrid config
           (match detections with Val l => l | _ => [] end);
       containers_updated := isUpdate |}.

(** The clients navigation bar. *)
Record Nav : Type := {
  clientCount : jsstring;
  clientLinks : jsstring;
  clientsNav_display : jsstring
}.

(** The client ids of updateClientsNavigation: the truthy ids, once each,
    in order of first appearance. *)
Definition clientIds (detections : list Detection) : list jsstring :=
  unique
    (flat_map (fun d => match client_id d with
                        | Val (c :: s) => [c :: s]
                        | _ => []
                        end) detections).

Definition clientNavLink (clientId : jsstring) : jsstring :=
  tpl "<a href=`/client/" ++ clientId ++ tpl "` class=`client-nav-link`>"
  ++ clientId ++ tpl "</a>".

Definition updateClientsNavigation (detections : list Detection) (nav : Nav) : Nav :=
  match clientIds detections with
  | [] =>
      {| clientCount := clientCount nav; clientLinks := clientLinks nav;
         clientsNav_display := lit "none" |}
  | ids =>
      {| clientCount := decimal_nat (List.length ids);
         clientLinks := join_empty (map clientNavLink ids);
         clientsNav_display := lit "block" |}
  end.

End Grid.

End MainPageTables.

(* ================================================================== *)
(** * Sample data *)
(* ================================================================== *)

Module Samples.
Import Js.

(** ** Stand-ins for the host *)

(** The integer a double holds, when it holds one. *)
Definition integer_of (x : float) : option Z :=
  match Prim2SF x with
  | S754_zero _ => Some 0%Z
  | S754_finite s m e =>
      let magnitude :=
        if Z.leb 0 e then Some (Z.pos m * 2 ^ e)%Z
        else if Z.eqb (Z.pos m mod 2 ^ (- e)) 0 then Some (Z.pos m / 2 ^ (- e))%Z
        else None in
      option_map (fun z => if s then (- z)%Z else z) magnitude
  | _ => None
  end.

Definition decimal (z : Z) : jsstring :=
  (if Z.ltb z 0 then lit "-" else [])
  ++ lit (NilEmpty.string_of_uint (N.to_uint (Z.abs_N z))).

(** Number::toString on the doubles the samples use, the integers below
    2^53 in magnitude; the host's shortest decimal for other doubles is not
    reproduced. *)
Definition Number_toString (x : float) : jsstring :=
  match integer_of x with
  | Some z => decimal z
  | None => if PrimFloat.is_nan x then lit "NaN" else []
  end.

(** StringToNumber for the samples, which hold no numeric strings: the
    empty string is 0 and every other string is not a number. *)
Definition StringToNumber (s : jsstring) : float :=
  match s with
  | [] => 0%float
  | _ :: _ => PrimFloat.nan
  end.

(** A host that renders every time of day the same. *)
Definition toLocaleTimeString (v : scalar) : jsstring := lit "12:00:00".

(** ** Client records *)

Definition bet (a : scalar) : Client.Move :=
  {| Client.player_label := SString (lit "BTN");
     Client.action := SString (lit "bet");
     Client.amount := a |}.

Definition ace_of_hearts : Client.Card := {| Client.display := lit "A" ++ Client.heart |}.

Definition table : Client.Detection :=
  {| Client.window_name := SString (lit "Table 1");
     Client.last_update := SString (lit "2024-01-01T12:00:00");
     Client.player_cards := Val [ace_of_hearts];
     Client.player_cards_string := SString (lit "Ah");
     Client.table_cards := Val [];
     Client.table_cards_string := SString [];
     Client.street := Val (lit "Preflop");
     Client.positions := Val [{| Client.player := SNumber 1%float;
                                 Client.name := SString (lit "BTN") |}];
     Client.moves := Val [{| Client.sd_street := SString (lit "Preflop");
                             Client.sd_moves := [bet (SNumber 25%float)] |}];
     Client.solver_link := Val (lit "https://solver.example/ah") |}.

Definition with_show_moves (b : bool) (c : Client.Config) : Client.Config :=
  {| Client.backend_capture_interval := Client.backend_capture_interval c;
     Client.show_table_cards := Client.show_table_cards c;
     Client.show_positions := Client.show_positions c;
     Client.show_moves := b;
     Client.show_solver_link := Client.show_solver_link c |}.

(** ** Engine records *)

Import Engine.

Definition hand : list Card :=
  [{| slot := 1; rank := 14; card_suit := Spades |};
   {| slot := 2; rank := 13; card_suit := Spades |};
   {| slot := 3; rank := 12; card_suit := Spades |};
   {| slot := 4; rank := 11; card_suit := Spades |}].

Definition button_at (i : nat) : list Position := [{| seat := i; label := "BTN" |}].

(** An observation of the sample hand before the flop, the button at seat
    [b], seat 1 reading [b1] and seat 2 reading [b2]. *)
Definition preflop (b : nat) (b1 b2 : BidRead) : Observation :=
  {| obs_hole := hand; obs_community := []; obs_positions := button_at b;
     obs_bids := [{| bid_seat := 1; bid_amount := b1 |};
                  {| bid_seat := 2; bid_amount := b2 |}];
     obs_folds := [] |}.

Definition flop : list Card :=
  [{| slot := 1; rank := 2; card_suit := Hearts |};
   {| slot := 2; rank := 7; card_suit := Clubs |};
   {| slot := 3; rank := 9; card_suit := Diamonds |}].

Definition on_flop : Observation :=
  {| obs_hole := hand; obs_community := flop; obs_positions := button_at 1;
     obs_bids := []; obs_folds := [] |}.

Definition other_hand : list Card :=
  [{| slot := 1; rank := 2; card_suit := Clubs |};
   {| slot := 2; rank := 3; card_suit := Clubs |};
   {| slot := 3; rank := 4; card_suit := Clubs |};
   {| slot := 4; rank := 5; card_suit := Clubs |}].

Definition next_deal : Observation :=
  {| obs_hole := other_hand; obs_community := []; obs_positions := button_at 1;
     obs_bids := []; obs_folds := [] |}.

Definition never (gs : GameState) (o : Observation) : bool := false.

(** The rule of section 4.4 with no street end in sight. *)
Definition rule : GameState -> Observation -> list Move := reconstruct_moves never.

(** Seat 1 bets 50; seat 2 reads 0, 0, 100, 100. *)
Definition raise_cycles : list (Observation * N) :=
  [(preflop 1 (Amount 50) (Amount 0), 1%N);
   (preflop 1 (Amount 50) (Amount 0), 2%N);
   (preflop 1 (Amount 50) (Amount 100), 3%N);
   (preflop 1 (Amount 50) (Amount 100), 4%N)].

Definition raise_to_100 : Move :=
  {| move_seat := 2; move_kind := Raise; move_amount := Some 100%Q;
     move_street := Preflop |}.

(** Seat 1 has 75 committed after two cycles. *)
Definition seventy_five : Tracker :=
  track_all rule initial
    [(preflop 1 (Amount 75) NoAmount, 1%N); (preflop 1 (Amount 75) NoAmount, 2%N)].

(** The sample hand before the flop as the recognition stages hand it
    over, the button at seat 1 and the characters [text] recognised in the
    bid region of seat 1. *)
Definition readout_preflop (text : string) : Readout :=
  {| seen_hole := hand; seen_community := []; seen_positions := button_at 1;
     seen_text := [(1, text)]; seen_folds := [] |}.

(** The sample hand with two of its cards read, in the other order. *)
Definition two_cards_read : Observation :=
  {| obs_hole := [{| slot := 4; rank := 11; card_suit := Spades |};
                  {| slot := 2; rank := 13; card_suit := Spades |}];
     obs_community := []; obs_positions := [];
     obs_bids := [{| bid_seat := 1; bid_amount := Amount 75 |}];
     obs_folds := [] |}.

(** Seat 1 reads [b] twice and 75 twice after the 75 it has committed. *)
Definition then_75_again (b : BidRead) : list (Observation * N) :=
  [(preflop 1 b NoAmount, 3%N); (preflop 1 b NoAmount, 4%N);
   (preflop 1 (Amount 75) NoAmount, 5%N); (preflop 1 (Amount 75) NoAmount, 6%N)].

End Samples.

(* ================================================================== *)
(** * More sample data: pages and responses *)
(* ================================================================== *)

Module PageSamples.
Import Js Client JsMore.

Definition scalar_json (v : scalar) : json :=
  match v with
  | SUndefined => JNull
  | SNull => JNull
  | SBool b => JBool b
  | SNumber x => JNumber x
  | SString s => JString s
  end.

(** A parsed object with two of a detection's properties, enough to tell
    the sample tables apart. *)
Definition source_object (d : Client.Detection) : json :=
  JObject [(lit "window_name", scalar_json (window_name d));
           (lit "player_cards_string", scalar_json (player_cards_string d))].

(** A config with every display toggle off. *)
Definition all_hidden : Config :=
  {| backend_capture_interval := SNumber 3%float;
     show_table_cards := false; show_positions := false;
     show_moves := false; show_solver_link := false |}.

Definition clientId : scalar := SString (lit "alpha").

Definition no_length_message : jsstring :=
  lit "Cannot read properties of undefined (reading 'length')".

Definition blank : ClientPage.Dom :=
  {| ClientPage.connectionStatus_className := [];
     ClientPage.connectionStatus_textContent := [];
     ClientPage.statusIndicator := [];
     ClientPage.statusText := [];
     ClientPage.status := [];
     ClientPage.content := lit "Loading...";
     ClientPage.updateIndicator := false;
     ClientPage.backendInfo := Some [] |}.

Definition fresh : ClientPage.World := ClientPage.loaded blank.

(** An ok response with the sample table and the ETag v1. *)
Definition one_table : ClientPage.fetched :=
  ClientPage.Response 200 (lit "OK") (Val (lit "v1"))
    (ClientPage.Parsed (SString (lit "2024-01-01T12:00:00")) (Val [Samples.table])).

(** An ok response with the ETag v2 whose body has no detections. *)
Definition no_detections : ClientPage.body :=
  ClientPage.Parsed (SString (lit "2024-01-01T12:00:05")) Absent.

(** An ok response whose detections are an array with the one element
    null. *)
Definition null_element : ClientPage.body :=
  ClientPage.ParsedUnrenderable (SString (lit "2024-01-01T12:00:05")) [] JNull []
    (lit "Cannot read properties of null (reading 'player_cards')").

(** An ok response whose detections are the empty string. *)
Definition empty_string_detections : ClientPage.body :=
  ClientPage.ParsedOther (SString (lit "2024-01-01T12:00:05")) (ClientPage.OString [])
    (lit "detections.map is not a function").

Definition config_gone : ClientPage.config_fetched :=
  ClientPage.ConfigResponse 404 (ClientPage.ConfigUnparseable []).

(** Three detections on the main page: two tables of client alpha and
    one that names no client. *)
Definition of_alpha : MainPageTables.Detection :=
  {| MainPageTables.table := Samples.table;
     MainPageTables.client_id := Val (lit "alpha") |}.

Definition of_nobody : MainPageTables.Detection :=
  {| MainPageTables.table := Samples.table;
     MainPageTables.client_id := Null |}.

Definition three_tables : list MainPageTables.Detection :=
  [of_alpha; of_nobody; of_alpha].

Definition hidden_nav : MainPageTables.Nav :=
  {| MainPageTables.clientCount := lit "0";
     MainPageTables.clientLinks := [];
     MainPageTables.clientsNav_display := lit "none" |}.

End PageSamples.

(* ================================================================== *)
(** * Part III.a  The client script: theorems *)
(* ================================================================== *)

Module JsFacts.
Import Js.

Lemma jsstring_eqb_refl (s : jsstring) : jsstring_eqb s s = true.
Proof.
  induction s as [|c s IH]; simpl; [reflexivity|].
  rewrite N.eqb_refl. exact IH.
Qed.

Lemma jsstring_eqb_eq (a b : jsstring) : jsstring_eqb a b = true <-> a = b.
Proof.
  split.
  - revert b. induction a as [|x a IH]; intros [|y b] H; simpl in H;
      try discriminate; [reflexivity|].
    apply andb_true_iff in H. destruct H as [Hxy Hab].
    apply N.eqb_eq in Hxy. apply IH in Hab. congruence.
  - intros ->. apply jsstring_eqb_refl.
Qed.

Lemma strict_eq_eq (a b : option jsstring) : strict_eq a b = true <-> a = b.
Proof.
  destruct a as [x|], b as [y|]; simpl; try (split; [discriminate|congruence]).
  - rewrite jsstring_eqb_eq. split; congruence.
  - split; reflexivity.
Qed.

Lemma slice_last_snoc (body : jsstring) (c : code_unit) :
  slice_last (body ++ [c]) = [c].
Proof.
  unfold slice_last. rewrite length_app. simpl.
  replace (List.length body + 1 - 1) with (List.length body + 0) by lia.
  rewrite skipn_app, Nat.add_0_r, skipn_all.
  replace (List.length body - List.length body) with 0 by lia.
  reflexivity.
Qed.

Lemma slice_last_short (s : jsstring) : List.length (slice_last s) <= 1.
Proof.
  unfold slice_last. rewrite length_skipn. lia.
Qed.

Lemma replace_whitespace_runs_filter (s : jsstring) :
  replace_whitespace_runs s = filter (fun c => negb (is_whitespace c)) s.
Proof.
  induction s as [|c s IH]; simpl; [reflexivity|].
  destruct (is_whitespace c); simpl; rewrite IH; reflexivity.
Qed.

End JsFacts.

Module ClientFacts.
Import Js Client JsFacts.

(** ** getSuitColor *)

(** C8.  getSuitColor looks at the last code unit of the display string
    only: whatever precedes it, the colour is red for the heart (U+2665),
    blue for the diamond (U+2666), green for the club (U+2663) and black
    for every other last unit, the spade among them; the empty string is
    black too. *)
Theorem getSuitColor_last_unit :
  (forall (body : jsstring) (c : code_unit),
      getSuitColor (body ++ [c]) =
      if N.eqb c 9829 then lit "red"
      else if N.eqb c 9830 then lit "blue"
      else if N.eqb c 9827 then lit "green"
      else lit "black")
  /\ (forall body : jsstring, getSuitColor (body ++ spade) = lit "black")
  /\ getSuitColor [] = lit "black".
Proof.
  assert (Hgen : forall body c,
      getSuitColor (body ++ [c]) =
      if N.eqb c 9829 then lit "red"
      else if N.eqb c 9830 then lit "blue"
      else if N.eqb c 9827 then lit "green"
      else lit "black").
  { intros body c. unfold getSuitColor. rewrite slice_last_snoc.
    unfold heart, diamond, club. simpl jsstring_eqb.
    rewrite !andb_true_r. reflexivity. }
  split; [exact Hgen|]. split.
  - intros body. unfold spade. rewrite Hgen. reflexivity.
  - reflexivity.
Qed.

(** The main page's copy of getSuitColor compares the one-unit suit with
    literals of three code units, so every card is black there. *)
Lemma main_page_getSuitColor_black (card : jsstring) :
  MainPage.getSuitColor card = lit "black".
Proof.
  unfold MainPage.getSuitColor.
  pose proof (slice_last_short card) as Hlen.
  destruct (slice_last card) as [|x [|y rest]]; simpl in *; try lia;
    try reflexivity.
  rewrite !andb_false_r. reflexivity.
Qed.

(** ** copyToClipboard *)

(** C10.  The text copyToClipboard hands to the clipboard is the input
    without its whitespace code units, the others kept in order; for a
    missing, null or empty input it is the empty string; and once the
    browser grants the write the clipboard holds exactly that text. *)
Theorem copyToClipboard_strips_whitespace :
  (forall s : jsstring,
      normalized (Val s) = filter (fun c => negb (is_whitespace c)) s)
  /\ (forall text : field jsstring,
         Forall (fun c => is_whitespace c = false) (normalized text))
  /\ normalized Absent = [] /\ normalized Null = [] /\ normalized (Val []) = []
  /\ (forall (text : field jsstring) (p : Page),
         clipboard (copyToClipboard text true p) = normalized text).
Proof.
  assert (Hval : forall s, normalized (Val s) = filter (fun c => negb (is_whitespace c)) s).
  { intros [|c s]; [reflexivity|].
    unfold normalized. simpl truthy_string. cbv iota.
    apply replace_whitespace_runs_filter. }
  split; [exact Hval|]. split.
  - intros [| |s]; try constructor.
    rewrite Hval. apply Forall_forall. intros c Hc.
    apply filter_In in Hc. destruct Hc as [_ Hc].
    apply negb_true_iff in Hc. exact Hc.
  - repeat split; reflexivity.
Qed.

Section Rendered.

Variable Number_toString : float -> jsstring.
Variable StringToNumber : jsstring -> float.
Variable toLocaleTimeString : scalar -> jsstring.

#[local] Abbreviation show := (ToString Number_toString).
#[local] Abbreviation stringify := (JSON_stringify Number_toString).

(** ** detectChanges *)

(** C6.  detectChanges answers false exactly when the serialization of the
    new detections is the serialization of the stored ones, true exactly
    when the two differ, and two calls whose arguments serialize alike
    answer alike. *)
Theorem detectChanges_compares_serializations
  (previousDetections newDetections : option json) :
  (detectChanges Number_toString previousDetections newDetections = false
     <-> stringify newDetections = stringify previousDetections)
  /\ (detectChanges Number_toString previousDetections newDetections = true
     <-> stringify newDetections <> stringify previousDetections)
  /\ (forall previous' new' : option json,
         stringify new' = stringify newDetections ->
         stringify previous' = stringify previousDetections ->
         detectChanges Number_toString previous' new'
         = detectChanges Number_toString previousDetections newDetections).
Proof.
  unfold detectChanges. repeat split.
  - intros H. apply negb_false_iff in H. apply strict_eq_eq. exact H.
  - intros H. apply negb_false_iff. apply strict_eq_eq. exact H.
  - intros H Heq. apply negb_true_iff in H.
    apply strict_eq_eq in Heq. congruence.
  - intros H. apply negb_true_iff.
    destruct (strict_eq (stringify newDetections) (stringify previousDetections)) eqn:E;
      [|reflexivity].
    apply strict_eq_eq in E. contradiction.
  - intros previous' new' Hn Hp. cbv zeta. rewrite Hn, Hp. reflexivity.
Qed.

(** Polling the detections that are stored reports no change. *)
Lemma detectChanges_same (detections : option json) :
  detectChanges Number_toString detections detections = false.
Proof.
  unfold detectChanges. apply negb_false_iff. apply strict_eq_eq. reflexivity.
Qed.

(** ** createMovesSection *)


(** ** The display toggles *)

(** C7.  A toggle that is off makes its own section builder return the
    empty string; each builder reads no other toggle, so its output is the
    same under any two configurations that agree on its own toggle; and the
    table then consists of the frame and the other sections alone. *)
Theorem toggle_suppresses_its_section
  (config : Config) (detection : Detection) (isUpdate : bool) :
  (show_table_cards config = false ->
     createTableCardsSection Number_toString config detection isUpdate = [])
  /\ (show_positions config = false ->
     createPositionsSection Number_toString config detection isUpdate = [])
  /\ (show_moves config = false ->
     createMovesSection Number_toString StringToNumber config detection isUpdate = [])
  /\ (show_solver_link config = false ->
     createSolverLinkSection config detection isUpdate = [])
  /\ (forall other : Config,
     (show_table_cards other = show_table_cards config ->
        createTableCardsSection Number_toString other detection isUpdate
        = createTableCardsSection Number_toString config detection isUpdate)
     /\ (show_positions other = show_positions config ->
        createPositionsSection Number_toString other detection isUpdate
        = createPositionsSection Number_toString config detection isUpdate)
     /\ (show_moves other = show_moves config ->
        createMovesSection Number_toString StringToNumber other detection isUpdate
        = createMovesSection Number_toString StringToNumber config detection isUpdate)
     /\ (show_solver_link other = show_solver_link config ->
        createSolverLinkSection other detection isUpdate
        = createSolverLinkSection config detection isUpdate))
  /\ (show_table_cards config = false ->
     createTableContainer Number_toString StringToNumber toLocaleTimeString
       config detection isUpdate
     = tableFrame Number_toString toLocaleTimeString detection isUpdate
         (append_if_truthy (playerCardsColumn Number_toString detection isUpdate)
            (createPositionsSection Number_toString config detection isUpdate))
         (createMovesSection Number_toString StringToNumber config detection isUpdate)
         (createSolverLinkSection config detection isUpdate))
  /\ (show_positions config = false ->
     createTableContainer Number_toString StringToNumber toLocaleTimeString
       config detection isUpdate
     = tableFrame Number_toString toLocaleTimeString detection isUpdate
         (append_if_truthy (playerCardsColumn Number_toString detection isUpdate)
            (createTableCardsSection Number_toString config detection isUpdate))
         (createMovesSection Number_toString StringToNumber config detection isUpdate)
         (createSolverLinkSection config detection isUpdate))
  /\ (show_moves config = false ->
     createTableContainer Number_toString StringToNumber toLocaleTimeString
       config detection isUpdate
     = tableFrame Number_toString toLocaleTimeString detection isUpdate
         (append_if_truthy
            (append_if_truthy (playerCardsColumn Number_toString detection isUpdate)
               (createTableCardsSection Number_toString config detection isUpdate))
            (createPositionsSection Number_toString config detection isUpdate))
         []
         (createSolverLinkSection config detection isUpdate))
  /\ (show_solver_link config = false ->
     createTableContainer Number_toString StringToNumber toLocaleTimeString
       config detection isUpdate
     = tableFrame Number_toString toLocaleTimeString detection isUpdate
         (append_if_truthy
            (append_if_truthy (playerCardsColumn Number_toString detection isUpdate)
               (createTableCardsSection Number_toString config detection isUpdate))
            (createPositionsSection Number_toString config detection isUpdate))
         (createMovesSection Number_toString StringToNumber config detection isUpdate)
         []).
Proof.
  assert (Ht : show_table_cards config = false ->
     createTableCardsSection Number_toString config detection isUpdate = [])
    by (intros H; unfold createTableCardsSection; rewrite H; reflexivity).
  assert (Hp : show_positions config = false ->
     createPositionsSection Number_toString config detection isUpdate = [])
    by (intros H; unfold createPositionsSection; rewrite H; reflexivity).
  assert (Hm : show_moves config = false ->
     createMovesSection Number_toString StringToNumber config detection isUpdate = [])
    by (intros H; unfold createMovesSection; rewrite H; reflexivity).
  assert (Hs : show_solver_link config = false ->
     createSolverLinkSection config detection isUpdate = [])
    by (intros H; unfold createSolverLinkSection; rewrite H; reflexivity).
  repeat match goal with |- _ /\ _ => split end; try assumption.
  - intros other. repeat split; intros H.
    + unfold createTableCardsSection. rewrite H. reflexivity.
    + unfold createPositionsSection. rewrite H. reflexivity.
    + unfold createMovesSection. rewrite H. reflexivity.
    + unfold createSolverLinkSection. rewrite H. reflexivity.
  - intros H. unfold createTableContainer. rewrite (Ht H). reflexivity.
  - intros H. unfold createTableContainer. rewrite (Hp H).
    destruct (createTableCardsSection Number_toString config detection isUpdate);
      reflexivity.
  - intros H. unfold createTableContainer. rewrite (Hm H). reflexivity.
  - intros H. unfold createTableContainer. rewrite (Hs H). reflexivity.
Qed.

End Rendered.

End ClientFacts.

(* ================================================================== *)
(** * Part III.b  The detection engine: theorems *)
(* ================================================================== *)

Module EngineFacts.
Import Engine.

(** ** The new-hand signals *)

Lemma same_face_eq (a b : Card) :
  same_face a b = true <-> rank a = rank b /\ card_suit a = card_suit b.
Proof.
  unfold same_face. rewrite andb_true_iff, Nat.eqb_eq.
  split; intros [Hr Hs]; (split; [exact Hr|]).
  - destruct (card_suit a), (card_suit b); simpl in Hs; congruence.
  - rewrite Hs. destruct (card_suit b); reflexivity.
Qed.

Lemma card_at_slot (cards : list Card) (s : nat) (k : Card) :
  card_at cards s = Some k -> In k cards /\ slot k = s.
Proof.
  induction cards as [|c cards IH]; simpl; [discriminate|].
  destruct (Nat.eqb_spec (slot c) s) as [E|_].
  - intros H. injection H as <-. split; [left; reflexivity|exact E].
  - intros H. destruct (IH H) as [Hin Hs]. split; [right; exact Hin|exact Hs].
Qed.

(** With one card to a slot, a card of the list is the one found in its
    slot. *)
Lemma card_at_In (cards : list Card) (c : Card) :
  NoDup (map slot cards) -> In c cards -> card_at cards (slot c) = Some c.
Proof.
  induction cards as [|x cards IH]; simpl; [contradiction|].
  intros Hnd Hin. inversion Hnd as [|? ? Hx Hnd']; subst.
  destruct Hin as [->|Hin]; [rewrite Nat.eqb_refl; reflexivity|].
  destruct (Nat.eqb_spec (slot x) (slot c)) as [E|_]; [|apply IH; assumption].
  exfalso. apply Hx. rewrite E. apply in_map. exact Hin.
Qed.

(** The hole cards change when some card that was read differs from the
    card known for its slot. *)
Lemma hole_changed_iff (gs : GameState) (o : Observation) :
  hole_changed gs o = true
  <-> exists c k : Card,
        In c (obs_hole o) /\ card_at (hole_cards gs) (slot c) = Some k
        /\ same_face c k = false.
Proof.
  unfold hole_changed. rewrite existsb_exists. split.
  - intros (c & Hin & H).
    destruct (card_at (hole_cards gs) (slot c)) as [k|] eqn:E; [|discriminate].
    exists c, k. apply negb_true_iff in H. repeat split; assumption.
  - intros (c & k & Hin & E & H). exists c. split; [exact Hin|].
    rewrite E, H. reflexivity.
Qed.

(** The order in which the cards of a frame are reported plays no part. *)
Lemma hole_changed_reordered (gs : GameState) (o o' : Observation) :
  (forall c : Card, In c (obs_hole o) <-> In c (obs_hole o')) ->
  hole_changed gs o = hole_changed gs o'.
Proof.
  intros H. apply eq_true_iff_eq. rewrite !hole_changed_iff.
  split; intros (c & k & Hin & Hrest); exists c, k; (split; [apply H; exact Hin|exact Hrest]).
Qed.

(** Cards that are read again, be it some of them only, are no change. *)
Lemma hole_unchanged_when_read_again (gs : GameState) (o : Observation) :
  NoDup (map slot (hole_cards gs)) ->
  (forall c : Card, In c (obs_hole o) -> In c (hole_cards gs)) ->
  hole_changed gs o = false.
Proof.
  intros Hnd Hsub. apply not_true_is_false. rewrite hole_changed_iff.
  intros (c & k & Hin & E & H).
  rewrite (card_at_In _ _ Hnd (Hsub c Hin)) in E. injection E as <-.
  assert (Hsame : same_face c c = true) by (apply same_face_eq; split; reflexivity).
  congruence.
Qed.

Lemma positions_changed_iff (gs : GameState) (o : Observation) :
  positions_changed gs o = true
  <-> exists p q : Position,
        In p (obs_positions o) /\ In q (positions gs) /\ clash p q = true.
Proof.
  unfold positions_changed. rewrite existsb_exists. split.
  - intros (p & Hin & H). apply existsb_exists in H. destruct H as (q & Hq & H).
    exists p, q. repeat split; assumption.
  - intros (p & q & Hp & Hq & H). exists p. split; [exact Hp|].
    apply existsb_exists. exists q. split; assumption.
Qed.

Lemma count_regressed_iff (gs : GameState) (o : Observation) :
  count_regressed gs o = true
  <-> List.length (obs_community o) < List.length (community_cards gs).
Proof. unfold count_regressed. apply Nat.ltb_lt. Qed.

Lemma new_hand_iff (gs : GameState) (o : Observation) :
  new_hand gs o = true
  <-> (List.length (obs_community o) < List.length (community_cards gs)
       \/ hole_changed gs o = true
       \/ positions_changed gs o = true).
Proof.
  unfold new_hand. rewrite !orb_true_iff, count_regressed_iff. reflexivity.
Qed.

(** ** Street *)

(** C1.  Street is a function of the community-card count: Preflop at 0,
    Flop at 3, Turn at 4, River at 5 and no street at any other count; and
    the street the tracker records after a cycle is Street of the count it
    observed, whatever the other signals and the state before. *)
Theorem Street_of_count_only :
  (forall c : nat,
      (Street c = Some Preflop <-> c = 0)
      /\ (Street c = Some Flop <-> c = 3)
      /\ (Street c = Some Turn <-> c = 4)
      /\ (Street c = Some River <-> c = 5)
      /\ (Street c = None <-> c <> 0 /\ c <> 3 /\ c <> 4 /\ c <> 5))
  /\ (forall (infer : GameState -> Observation -> list Move)
        (t : Tracker) (o : Observation) (now : N),
         current_street (game (track infer t o now))
         = Street (List.length (obs_community o))).
Proof.
  split.
  - intros c. do 6 (try destruct c as [|c]); simpl;
      repeat split; intros; try discriminate; try lia; try reflexivity;
      try (exfalso; lia).
  - intros infer t o now. reflexivity.
Qed.

(** ** New hands *)

Section TrackingFacts.

Variable infer : GameState -> Observation -> list Move.

Lemma prepare_new_hand (t : Tracker) (o : Observation) :
  new_hand (game t) o = true -> prepare t o = reset t.
Proof. intros H. unfold prepare. rewrite H. reflexivity. Qed.

Lemma prepare_same_hand (t : Tracker) (o : Observation) :
  new_hand (game t) o = false -> prepare t o = t.
Proof. intros H. unfold prepare. rewrite H. reflexivity. Qed.

Lemma epoch_track (t : Tracker) (o : Observation) (now : N) :
  epoch (game (track infer t o now))
  = if new_hand (game t) o then S (epoch (game t)) else epoch (game t).
Proof.
  unfold track, prepare. destruct (new_hand (game t) o); reflexivity.
Qed.

Lemma history_track_new_hand (t : Tracker) (o : Observation) (now : N) :
  new_hand (game t) o = true -> history (game (track infer t o now)) = [].
Proof.
  intros H. unfold track. rewrite (prepare_new_hand _ _ H). simpl.
  induction (infer _ o) as [|m l IH]; simpl; [reflexivity|exact IH].
Qed.

Lemma history_track_same_hand (t : Tracker) (o : Observation) (now : N) :
  new_hand (game t) o = false ->
  history (game (track infer t o now))
  = history (game t)
    ++ filter (fun m => mem_move m (pending t)) (candidates infer t o).
Proof.
  intros H. unfold track, candidates. rewrite (prepare_same_hand _ _ H).
  reflexivity.
Qed.

Lemma epoch_track_all_le (cycles : list (Observation * N)) (t : Tracker) :
  epoch (game t) <= epoch (game (track_all infer t cycles)).
Proof.
  revert t. induction cycles as [|[o now] rest IH]; intros t; simpl; [lia|].
  specialize (IH (track infer t o now)). rewrite epoch_track in IH.
  destruct (new_hand (game t) o); lia.
Qed.

Lemma count_within_epoch (cycles : list (Observation * N)) (t : Tracker) :
  epoch (game (track_all infer t cycles)) = epoch (game t) ->
  List.length (community_cards (game t))
  <= List.length (community_cards (game (track_all infer t cycles))).
Proof.
  revert t. induction cycles as [|[o now] rest IH]; intros t He; simpl in *; [lia|].
  pose proof (epoch_track_all_le rest (track infer t o now)) as Hle.
  rewrite epoch_track in Hle.
  destruct (new_hand (game t) o) eqn:Hn; [lia|].
  assert (He' : epoch (game (track_all infer (track infer t o now) rest))
                = epoch (game (track infer t o now))).
  { rewrite epoch_track, Hn. exact He. }
  specialize (IH _ He'). simpl in IH.
  unfold new_hand in Hn. apply orb_false_iff in Hn. destruct Hn as [Hc _].
  unfold count_regressed in Hc. apply Nat.ltb_ge in Hc. lia.
Qed.

(** What a cycle does to the epoch and the history, as this tracker
    decides a new hand: a new hand increments the epoch and clears the
    history; every other cycle keeps the epoch, only appends to the history
    and does not lower the count; and over a run of cycles that ends in the
    epoch it started in, the community-card count has not decreased. *)
Lemma epoch_and_history_after_cycle (t : Tracker) (o : Observation) (now : N) :
  (new_hand (game t) o = true ->
   epoch (game (track infer t o now)) = S (epoch (game t))
   /\ history (game (track infer t o now)) = [])
  /\ (new_hand (game t) o = false ->
      epoch (game (track infer t o now)) = epoch (game t)
      /\ (exists added : list Move,
             history (game (track infer t o now)) = history (game t) ++ added)
      /\ List.length (community_cards (game t))
         <= List.length (community_cards (game (track infer t o now))))
  /\ (forall cycles : list (Observation * N),
         epoch (game (track_all infer t cycles)) = epoch (game t) ->
         List.length (community_cards (game t))
         <= List.length (community_cards (game (track_all infer t cycles)))).
Proof.
  split; [|split].
  - intros H. split.
    + rewrite epoch_track, H. reflexivity.
    + apply history_track_new_hand. exact H.
  - intros H. split; [|split].
    + rewrite epoch_track, H. reflexivity.
    + eexists. apply history_track_same_hand. exact H.
    + simpl. unfold new_hand in H. apply orb_false_iff in H.
      destruct H as [Hc _]. unfold count_regressed in Hc.
      apply Nat.ltb_ge in Hc. exact Hc.
  - intros cycles. apply count_within_epoch.
Qed.

(** ** Debounce *)

Lemma track_all_app (l1 l2 : list (Observation * N)) (t : Tracker) :
  track_all infer t (l1 ++ l2) = track_all infer (track_all infer t l1) l2.
Proof.
  revert t. induction l1 as [|[o now] l1 IH]; intros t; simpl; [reflexivity|].
  apply IH.
Qed.

Lemma track_all_snoc (l : list (Observation * N)) (c : Observation * N) (t : Tracker) :
  track_all infer t (l ++ [c]) = track infer (track_all infer t l) (fst c) (snd c).
Proof. rewrite track_all_app. destruct c as [o now]. reflexivity. Qed.

Lemma pending_track (t : Tracker) (o : Observation) (now : N) (m : Move) :
  In m (pending (track infer t o now)) -> In m (candidates infer t o).
Proof.
  unfold track, candidates. simpl. intros H.
  apply filter_In in H. tauto.
Qed.

(** What holds after every run from the initial tracker: a committed move
    was a candidate of two cycles in a row, and a pending one is a candidate
    of the last cycle. *)
Lemma debounce_invariant (cycles : list (Observation * N)) :
  (forall m : Move,
      In m (history (game (track_all infer initial cycles))) ->
      exists (before : list (Observation * N)) (c1 c2 : Observation * N)
             (after : list (Observation * N)),
        cycles = before ++ c1 :: c2 :: after
        /\ new_hand
             (game (track infer (track_all infer initial before) (fst c1) (snd c1)))
             (fst c2) = false
        /\ In m (candidates infer
                   (track infer (track_all infer initial before) (fst c1) (snd c1))
                   (fst c2))
        /\ exists m' : Move,
             In m' (candidates infer (track_all infer initial before) (fst c1))
             /\ move_eqb m m' = true)
  /\ (forall m : Move,
         In m (pending (track_all infer initial cycles)) ->
         exists (before : list (Observation * N)) (c : Observation * N),
           cycles = before ++ [c]
           /\ In m (candidates infer (track_all infer initial before) (fst c))).
Proof.
  induction cycles as [|c cycles IH] using rev_ind.
  - split; intros m H; simpl in H; contradiction.
  - destruct IH as [IHh IHp]. rewrite track_all_snoc.
    set (t := track_all infer initial cycles) in *.
    split.
    + intros m H.
      destruct (new_hand (game t) (fst c)) eqn:Hn.
      * rewrite (history_track_new_hand _ _ _ Hn) in H. contradiction.
      * rewrite (history_track_same_hand _ _ _ Hn) in H.
        apply in_app_or in H. destruct H as [H|H].
        -- destruct (IHh m H) as (before & c1 & c2 & after & -> & Hrest).
           exists before, c1, c2, (after ++ [c]). split; [|exact Hrest].
           rewrite <- app_assoc. reflexivity.
        -- apply filter_In in H. destruct H as [Hc Hm].
           unfold mem_move in Hm. apply existsb_exists in Hm.
           destruct Hm as (m' & Hp & Heq).
           destruct (IHp m' Hp) as (before & c1 & Hcy & Hc1).
           exists before, c1, c, []. subst cycles.
           assert (Ht : track infer (track_all infer initial before) (fst c1) (snd c1) = t).
           { unfold t. rewrite track_all_snoc. reflexivity. }
           rewrite Ht. split; [rewrite <- app_assoc; reflexivity|].
           split; [exact Hn|]. split; [exact Hc|].
           exists m'. split; assumption.
    + intros m H. apply pending_track in H.
      exists cycles, c. split; [reflexivity|exact H].
Qed.

(** C3.  Every move of the committed history, after any run of detection
    cycles from the initial tracker, was a candidate of two consecutive
    cycles of one hand: of the cycle that committed it and, as an identical
    move, of the cycle before, which held it pending.  A reading seen in a
    single cycle never enters the history. *)
Theorem committed_moves_confirmed_twice (cycles : list (Observation * N)) (m : Move) :
  In m (history (game (track_all infer initial cycles))) ->
  exists (before : list (Observation * N)) (c1 c2 : Observation * N)
         (after : list (Observation * N)),
    cycles = before ++ c1 :: c2 :: after
    /\ new_hand
         (game (track infer (track_all infer initial before) (fst c1) (snd c1)))
         (fst c2) = false
    /\ In m (candidates infer
               (track infer (track_all infer initial before) (fst c1) (snd c1))
               (fst c2))
    /\ exists m' : Move,
         In m' (candidates infer (track_all infer initial before) (fst c1))
         /\ move_eqb m m' = true.
Proof. apply (proj1 (debounce_invariant cycles)). Qed.

(** ** Unknown amounts *)

Lemma read_digits_unrecognised (cs : list ascii) (c : ascii) :
  In c cs -> recognised c = false ->
  forall (acc : N) (den : positive) (after_point : bool) (digits : nat),
    read_digits cs acc den after_point digits = Unknown.
Proof.
  intros Hin Hc. unfold recognised in Hc.
  induction cs as [|x cs IH]; [contradiction|].
  intros acc den after_point digits. simpl.
  destruct Hin as [->|Hin].
  - destruct (digit_of c); [discriminate|]. rewrite Hc. reflexivity.
  - destruct (digit_of x); [apply IH; exact Hin|].
    destruct (is_point x && negb after_point); [apply IH; exact Hin|reflexivity].
Qed.

Lemma reading_of_seats (f : nat -> BidRead) (i : nat) :
  reading (map (fun j => {| bid_seat := j; bid_amount := f j |}) seats) i
  = if existsb (Nat.eqb i) seats then f i else NoAmount.
Proof.
  unfold seats. cbn [map reading existsb bid_seat bid_amount].
  repeat match goal with
         | |- context [Nat.eqb ?a i] => rewrite (Nat.eqb_sym a i)
         end.
  repeat match goal with
         | |- context [Nat.eqb i ?k] =>
             destruct (Nat.eqb_spec i k) as [->|_]; [reflexivity|]
         end.
  reflexivity.
Qed.

Lemma amounts_track (t : Tracker) (o : Observation) (now : N) (i : nat) :
  reading (amounts (game (track infer t o now))) i
  = if existsb (Nat.eqb i) seats
    then (if bid_eqb (reading (obs_bids o) i) (reading (prev_bids (prepare t o)) i)
          then reading (obs_bids o) i
          else reading (amounts (game (prepare t o))) i)
    else NoAmount.
Proof.
  unfold track. cbn [game amounts]. unfold corroborate.
  apply (reading_of_seats
           (fun j => if bid_eqb (reading (obs_bids o) j)
                          (reading (prev_bids (prepare t o)) j)
                     then reading (obs_bids o) j
                     else reading (amounts (game (prepare t o))) j)).
Qed.

Lemma bid_eqb_unknown (b : BidRead) : bid_eqb Unknown b = true -> b = Unknown.
Proof. destruct b; simpl; intros H; congruence. Qed.

Lemma bid_eqb_no_amount (b : BidRead) : bid_eqb b NoAmount = true -> b = NoAmount.
Proof. destruct b; simpl; intros H; congruence. Qed.

End TrackingFacts.

Lemma reading_observed (r : Readout) (i : nat) :
  In i seats ->
  reading (obs_bids (observe r)) i = read_amount (seat_text (seen_text r) i).
Proof.
  intros Hi. unfold observe, read_bids. cbn [obs_bids].
  rewrite (reading_of_seats (fun j => read_amount (seat_text (seen_text r) j))).
  assert (Hseat : existsb (Nat.eqb i) seats = true).
  { apply existsb_exists. exists i. split; [exact Hi|apply Nat.eqb_refl]. }
  rewrite Hseat. reflexivity.
Qed.

Lemma read_amount_unrecognised (text : string) (c : ascii) :
  In c (list_ascii_of_string text) -> recognised c = false ->
  read_amount text = Unknown.
Proof.
  intros Hin Hc. destruct text as [|x text]; [contradiction|].
  unfold read_amount. eapply read_digits_unrecognised; eassumption.
Qed.

(** A failed read gives no candidate move. *)
Lemma candidate_of_unknown (street_end : GameState -> Observation -> bool)
  (gs : GameState) (o : Observation) (i : nat) :
  reading (obs_bids o) i = Unknown -> candidate street_end gs o i = None.
Proof.
  intros H. unfold candidate.
  destruct (Street _); [|reflexivity].
  destruct (negb (active gs i)); [reflexivity|]. cbv zeta. rewrite H. reflexivity.
Qed.

(** An unknown committed amount of an active seat leaves the
    minimum-to-call unknown. *)
Lemma min_to_call_unknown (gs : GameState) (j : nat) :
  In j seats -> active gs j = true -> reading (amounts gs) j = Unknown ->
  min_to_call gs = None.
Proof.
  intros Hj Hactive Hc. unfold min_to_call.
  induction seats as [|x l IH]; [contradiction|]. simpl.
  destruct Hj as [->|Hj].
  - rewrite Hactive. unfold committed_amount. rewrite Hc. reflexivity.
  - rewrite (IH Hj). destruct (active gs x); [|reflexivity].
    destruct (committed_amount gs x); reflexivity.
Qed.


End EngineFacts.

(* ================================================================== *)
(** * Part III.c  The theorems at the sample data *)
(* ================================================================== *)

Module Checks.
Import Js Engine Samples.

(** ** The client *)

Example heart_is_red : Client.getSuitColor (lit "A" ++ Client.heart) = lit "red".
Proof. reflexivity. Qed.

Example copied_hand_is_contiguous :
  Client.normalized (Val (lit "ac kd 7s 2h")) = lit "ackd7s2h".
Proof. reflexivity. Qed.

Example first_empty_poll_reports_no_change :
  Client.detectChanges Samples.Number_toString
    Client.previousDetections (Some (JArray [])) = false.
Proof. reflexivity. Qed.

Example bet_of_25 :
  Client.moveText Samples.Number_toString Samples.StringToNumber
    (bet (SNumber 25%float)) = lit "BTN: bet $25".
Proof. vm_compute. reflexivity. Qed.

(** C6 at two documents that differ and serialize alike: an infinite
    number is serialized as null. *)
Lemma infinity_serializes_as_null :
  Client.detectChanges Samples.Number_toString
    (Some (JArray [JNull])) (Some (JArray [JNumber PrimFloat.infinity]))
  = Client.detectChanges Samples.Number_toString
      (Some (JArray [JNull])) (Some (JArray [JNull])).
Proof.
  apply (proj2 (proj2 (ClientFacts.detectChanges_compares_serializations
                         Samples.Number_toString
                         (Some (JArray [JNull])) (Some (JArray [JNull]))))).
  - reflexivity.
  - reflexivity.
Defined.


(** C7 at the sample table with the moves toggle off. *)
Lemma moves_hidden_at_sample_table :
  Client.createMovesSection Samples.Number_toString Samples.StringToNumber
    (with_show_moves false Client.config) table true = [].
Proof.
  apply (proj1 (proj2 (proj2 (ClientFacts.toggle_suppresses_its_section
                                Samples.Number_toString Samples.StringToNumber
                                Samples.toLocaleTimeString
                                (with_show_moves false Client.config) table true)))).
  reflexivity.
Defined.

(** ** The scenarios of the specification, section 8 *)

(** Community cards of length 0, 0, 3: Preflop, Preflop, Flop, and no new
    hand at the flop. *)
Example streets_0_0_3 :
  let t1 := track rule initial (preflop 1 NoAmount NoAmount) 1 in
  let t2 := track rule t1 (preflop 1 NoAmount NoAmount) 2 in
  let t3 := track rule t2 on_flop 3 in
  current_street (game t1) = Some Preflop
  /\ current_street (game t2) = Some Preflop
  /\ current_street (game t3) = Some Flop
  /\ epoch (game t3) = epoch (game t1).
Proof. repeat split; reflexivity. Qed.

(** Different hole cards in the next cycle: the epoch is incremented and
    the history, which held a move, is cleared. *)
Example new_hole_cards_start_new_hand :
  List.length (history (game seventy_five)) = 1
  /\ epoch (game (track rule seventy_five next_deal 3)) = S (epoch (game seventy_five))
  /\ history (game (track rule seventy_five next_deal 3)) = [].
Proof. repeat split; reflexivity. Qed.

(** Seat 2 reads 0, 0, 100, 100 against 50 to call: the raise to 100 is
    committed at the second reading of 100, not before. *)
Example raise_committed_at_confirmation :
  history (game (track_all rule initial (firstn 3 raise_cycles)))
  = [{| move_seat := 1; move_kind := Raise; move_amount := Some 50%Q;
        move_street := Preflop |}]
  /\ history (game (track_all rule initial raise_cycles))
     = [{| move_seat := 1; move_kind := Raise; move_amount := Some 50%Q;
           move_street := Preflop |}; raise_to_100].
Proof. split; reflexivity. Qed.

(** C3 at the raise to 100. *)
Lemma raise_to_100_seen_twice :
  exists (before : list (Observation * N)) (c1 c2 : Observation * N)
         (after : list (Observation * N)),
    raise_cycles = before ++ c1 :: c2 :: after
    /\ new_hand (game (track rule (track_all rule initial before) (fst c1) (snd c1)))
         (fst c2) = false
    /\ In raise_to_100
         (candidates rule
            (track rule (track_all rule initial before) (fst c1) (snd c1)) (fst c2))
    /\ exists m' : Move,
         In m' (candidates rule (track_all rule initial before) (fst c1))
         /\ move_eqb raise_to_100 m' = true.
Proof.
  apply (@EngineFacts.committed_moves_confirmed_twice rule raise_cycles raise_to_100).
  vm_compute. right. left. reflexivity.
Defined.


(** Unknown is not zero in the history either.  After the 75 of seat 1,
    two failed reads make the committed amount Unknown, and the 75 read
    again adds no move; two reads of zero make it zero, and the 75 read
    again is a second raise. *)
Example unknown_is_not_a_cleared_bid :
  List.length (history (game seventy_five)) = 1
  /\ List.length (history (game (track_all rule seventy_five (then_75_again Unknown)))) = 1
  /\ List.length (history (game (track_all rule seventy_five (then_75_again (Amount 0))))) = 2.
Proof. repeat split; reflexivity. Qed.

(** The button moving to seat 2 is, for this tracker, a change of seat
    positions, and starts a new hand; two of the four hole cards read, in
    another order, and no position read, is none. *)
Example position_change_and_partial_read :
  new_hand (game seventy_five) (preflop 2 (Amount 75) NoAmount) = true
  /\ new_hand (game seventy_five) two_cards_read = false
  /\ hole_cards (game (track rule seventy_five two_cards_read 3))
     = [{| slot := 4; rank := 11; card_suit := Spades |};
        {| slot := 2; rank := 13; card_suit := Spades |};
        {| slot := 1; rank := 14; card_suit := Spades |};
        {| slot := 3; rank := 12; card_suit := Spades |}]
  /\ List.length (history (game (track rule seventy_five two_cards_read 3))) = 1.
Proof. repeat split; reflexivity. Qed.

End Checks.

(* ================================================================== *)
(** * Part III.d  More of the client script: strings and the main page *)
(* ================================================================== *)

Module JsMoreFacts.
Import Js JsMore JsFacts.

Lemma startsWith_app (p rest : jsstring) : startsWith (p ++ rest) p = true.
Proof.
  induction p as [|c p IH]; simpl; [destruct rest; reflexivity|].
  rewrite N.eqb_refl. exact IH.
Qed.

Lemma includes_app (before p rest : jsstring) :
  includes (before ++ p ++ rest) p = true.
Proof.
  induction before as [|c before IH]; simpl.
  - pose proof (startsWith_app p rest) as H.
    destruct (p ++ rest); cbn [includes]; rewrite H; reflexivity.
  - rewrite IH. apply orb_true_r.
Qed.

Lemma lit_injective (a b : string) : lit a = lit b -> a = b.
Proof.
  unfold lit. intros H.
  rewrite <- (string_of_list_ascii_of_string a), <- (string_of_list_ascii_of_string b).
  f_equal.
  revert H. generalize (list_ascii_of_string a) (list_ascii_of_string b).
  induction l as [|x l IH]; intros [|y l'] H; simpl in H; try discriminate;
    [reflexivity|].
  injection H as Hxy Hl. f_equal; [|apply IH; exact Hl].
  rewrite <- (ascii_N_embedding x), <- (ascii_N_embedding y), Hxy. reflexivity.
Qed.

Lemma lit_app (a b : string) : lit (a ++ b)%string = lit a ++ lit b.
Proof.
  unfold lit. induction a as [|c a IH]; simpl; [reflexivity|].
  rewrite IH. reflexivity.
Qed.

(** The value read back from digits with leading zeros. *)
Lemma zeros_read_back (k n : nat) :
  option_map Nat.of_uint
    (NilEmpty.uint_of_string
       (string_of_list_ascii (repeat "0"%char k)
        ++ NilEmpty.string_of_uint (Nat.to_uint n))%string)
  = Some n.
Proof.
  induction k as [|k IH]; simpl.
  - rewrite NilEmpty.usu. simpl. rewrite DecimalNat.Unsigned.of_to. reflexivity.
  - destruct (NilEmpty.uint_of_string _) as [u|]; simpl in *; [|discriminate].
    exact IH.
Qed.

Lemma padStart_zeros (s : string) (width : nat) :
  padStart (lit s) width 48%N
  = lit (string_of_list_ascii (repeat "0"%char (width - List.length (lit s))) ++ s)%string.
Proof.
  unfold padStart. rewrite lit_app. f_equal.
  generalize (width - List.length (lit s)). intros k.
  induction k as [|k IH]; simpl; [reflexivity|].
  unfold lit in *. simpl. rewrite <- IH. reflexivity.
Qed.

Lemma unique_from_In (items seen : list jsstring) (x : jsstring) :
  In x (unique_from seen items) <-> In x items /\ ~ In x seen.
Proof.
  revert seen. induction items as [|y items IH]; intros seen; simpl; [tauto|].
  destruct (existsb (jsstring_eqb y) seen) eqn:E.
  - apply existsb_exists in E. destruct E as (z & Hz & Hyz).
    apply jsstring_eqb_eq in Hyz. subst z.
    rewrite IH. split.
    + intros [H1 H2]. tauto.
    + intros [[->|H1] H2]; [contradiction|tauto].
  - assert (Hy : ~ In y seen).
    { intros Hin. apply not_true_iff_false in E. apply E.
      apply existsb_exists. exists y. split; [exact Hin|apply jsstring_eqb_refl]. }
    simpl. rewrite IH. simpl. split.
    + intros [->|[H1 H2]]; [tauto|]. split; [tauto|]. intros H. apply H2. right. exact H.
    + intros [[->|H1] H2]; [tauto|].
      destruct (list_eq_dec N.eq_dec y x) as [->|Hne]; [tauto|].
      right. split; [exact H1|]. intros [H|H]; [contradiction|contradiction].
Qed.

Lemma unique_from_NoDup (items seen : list jsstring) : NoDup (unique_from seen items).
Proof.
  revert seen. induction items as [|y items IH]; intros seen; simpl; [constructor|].
  destruct (existsb (jsstring_eqb y) seen); [apply IH|].
  constructor; [|apply IH].
  rewrite unique_from_In. simpl. tauto.
Qed.

Lemma unique_from_length (items seen : list jsstring) :
  List.length (unique_from seen items) <= List.length items.
Proof.
  revert seen. induction items as [|y items IH]; intros seen; simpl; [lia|].
  destruct (existsb (jsstring_eqb y) seen); [specialize (IH seen)|specialize (IH (y :: seen))];
    simpl; lia.
Qed.

End JsMoreFacts.

Module MoreClientFacts.
Import Js Client JsMore JsFacts.

Lemma normalized_filter (s : jsstring) :
  normalized (Val s) = filter (fun c => negb (is_whitespace c)) s.
Proof.
  destruct s as [|c s]; [reflexivity|].
  unfold normalized. simpl truthy_string. cbv iota.
  apply replace_whitespace_runs_filter.
Qed.

Lemma filter_twice {A : Type} (f : A -> bool) (l : list A) :
  filter f (filter f l) = filter f l.
Proof.
  induction l as [|x l IH]; simpl; [reflexivity|].
  destruct (f x) eqn:E; simpl; [rewrite E, IH; reflexivity|exact IH].
Qed.

(** X2.  Copying what was copied changes nothing: the text copyToClipboard
    writes is a fixed point of its normalization; and the text written for
    a concatenation is the concatenation of the texts written for the
    parts, so where the whitespace sits does not matter. *)
Theorem normalized_idempotent_and_additive :
  (forall text : field jsstring, normalized (Val (normalized text)) = normalized text)
  /\ (forall a b : jsstring,
         normalized (Val (a ++ b)) = normalized (Val a) ++ normalized (Val b)).
Proof.
  split.
  - intros [| |s]; try reflexivity.
    rewrite !normalized_filter. apply filter_twice.
  - intros a b. rewrite !normalized_filter. apply filter_app.
Qed.

Section Changes.

Variable Number_toString : float -> jsstring.

Lemma detectChanges_false_iff (a b : option json) :
  detectChanges Number_toString a b = false
  <-> JSON_stringify Number_toString b = JSON_stringify Number_toString a.
Proof.
  unfold detectChanges. cbv zeta. rewrite negb_false_iff. apply strict_eq_eq.
Qed.

(** X3.  "No change" is an equivalence on detections: detectChanges
    answers false for a value against itself, answers the same in both
    directions, and if it answers false from a to b and from b to c it
    answers false from a to c. *)
Theorem detectChanges_unchanged_is_equivalence :
  (forall a : option json, detectChanges Number_toString a a = false)
  /\ (forall a b : option json,
         detectChanges Number_toString a b = detectChanges Number_toString b a)
  /\ (forall a b c : option json,
         detectChanges Number_toString a b = false ->
         detectChanges Number_toString b c = false ->
         detectChanges Number_toString a c = false).
Proof.
  split; [|split].
  - intros a. apply detectChanges_false_iff. reflexivity.
  - intros a b.
    destruct (detectChanges Number_toString a b) eqn:Eab;
      destruct (detectChanges Number_toString b a) eqn:Eba; try reflexivity.
    + apply detectChanges_false_iff in Eba. symmetry in Eba.
      apply detectChanges_false_iff in Eba. congruence.
    + apply detectChanges_false_iff in Eab. symmetry in Eab.
      apply detectChanges_false_iff in Eab. congruence.
  - intros a b c Hab Hbc. apply detectChanges_false_iff in Hab, Hbc.
    apply detectChanges_false_iff. congruence.
Qed.

End Changes.

End MoreClientFacts.

Module MainPageFacts.
Import Js Client JsMore JsFacts JsMoreFacts MainPageTables.

Lemma truthy_ids_nil (detections : list Detection) :
  flat_map (fun d => match client_id d with
                     | Val (c :: s) => [c :: s]
                     | _ => []
                     end) detections = []
  <-> existsb has_client detections = false.
Proof.
  induction detections as [|d l IH]; simpl; [tauto|].
  unfold has_client at 1. unfold truthy_string.
  destruct (client_id d) as [| |[|c s]]; simpl; try exact IH.
  split; discriminate.
Qed.

Lemma clientIds_nil (detections : list Detection) :
  clientIds detections = [] <-> existsb has_client detections = false.
Proof.
  rewrite <- truthy_ids_nil. unfold clientIds, unique.
  destruct (flat_map _ detections) as [|x rest]; simpl; [tauto|].
  split; discriminate.
Qed.

Section GridFacts.

Variable Number_toString : float -> jsstring.
Variable StringToNumber : jsstring -> float.
Variable toLocaleTimeString : scalar -> jsstring.

(** X12.  The navigation bar and the grid go together: for the same
    detections, updateClientsNavigation shows the bar exactly when
    renderCards shows the grid, which is when some detection names its
    client; otherwise the bar is hidden, its count and links left as they
    were, and the page shows the no-clients message.  The update flag
    changes nothing of the markup. *)
Theorem navigation_shown_with_grid (config : Config) (detections : list Detection)
  (isUpdate : bool) (nav : Nav) :
  (existsb has_client detections = true ->
     clientsNav_display (updateClientsNavigation detections nav) = lit "block"
     /\ innerHTML (renderCards Number_toString StringToNumber toLocaleTimeString
                     config (Val detections) isUpdate)
        = createDynamicTablesGrid Number_toString StringToNumber toLocaleTimeString
            config detections)
  /\ (existsb has_client detections = false ->
     clientsNav_display (updateClientsNavigation detections nav) = lit "none"
     /\ clientCount (updateClientsNavigation detections nav) = clientCount nav
     /\ clientLinks (updateClientsNavigation detections nav) = clientLinks nav
     /\ innerHTML (renderCards Number_toString StringToNumber toLocaleTimeString
                     config (Val detections) isUpdate)
        = createNoClientsMessage).
Proof.
  split; intros H.
  - split.
    + unfold updateClientsNavigation.
      destruct (clientIds detections) eqn:E; [|reflexivity].
      apply clientIds_nil in E. congruence.
    + unfold renderCards. destruct detections as [|d ds]; [discriminate|].
      rewrite H. reflexivity.
  - pose proof (proj2 (clientIds_nil detections) H) as E.
    unfold updateClientsNavigation. rewrite E.
    repeat split.
    unfold renderCards. destruct detections as [|d ds]; [reflexivity|].
    rewrite H. reflexivity.
Qed.

End GridFacts.

(** X13.  The clients listed in the navigation bar are the non-empty
    client ids of the detections, each once, and the count shown is their
    number, at most the number of detections. *)
Theorem client_ids_listed_once (detections : list Detection) :
  NoDup (clientIds detections)
  /\ (forall id : jsstring,
         In id (clientIds detections)
         <-> id <> [] /\ exists d : Detection, In d detections /\ client_id d = Val id)
  /\ List.length (clientIds detections) <= List.length detections
  /\ (forall nav : Nav,
         clientIds detections <> [] ->
         clientCount (updateClientsNavigation detections nav)
         = decimal_nat (List.length (clientIds detections))).
Proof.
  unfold clientIds, unique. split; [apply unique_from_NoDup|]. split; [|split].
  - intros id. rewrite unique_from_In. rewrite in_flat_map. split.
    + intros [(d & Hd & Hid) _].
      destruct (client_id d) as [| |[|c s]] eqn:E; simpl in Hid; try contradiction.
      destruct Hid as [<-|[]]. split; [discriminate|]. exists d. split; assumption.
    + intros (Hne & d & Hd & Hid). split; [|intros []].
      exists d. split; [exact Hd|]. rewrite Hid.
      destruct id as [|c s]; [contradiction|]. left. reflexivity.
  - etransitivity; [apply unique_from_length|].
    induction detections as [|d l IH]; [simpl; lia|].
    cbn [flat_map]. rewrite length_app. cbn [List.length].
    destruct (client_id d) as [| |[|c s]]; cbn [List.length];
      unfold jsstring, code_unit in *; lia.
  - intros nav Hne. unfold updateClientsNavigation, clientIds, unique.
    destruct (unique_from [] _) eqn:E; [contradiction|reflexivity].
Qed.

(** X14.  Table ids have at least two characters, and tables at different
    positions of the grid get different ids. *)
Theorem tableId_two_digits_and_distinct :
  (forall index : nat, 2 <= List.length (tableId index))
  /\ (forall i j : nat, tableId i = tableId j -> i = j).
Proof.
  split.
  - intros index. unfold tableId, padStart.
    rewrite length_app, repeat_length. lia.
  - intros i j H. unfold tableId, decimal_nat in H.
    rewrite !padStart_zeros in H. apply lit_injective in H.
    pose proof (zeros_read_back
                  (2 - List.length (lit (NilEmpty.string_of_uint (Nat.to_uint (i + 1)))))
                  (i + 1)) as Hi.
    pose proof (zeros_read_back
                  (2 - List.length (lit (NilEmpty.string_of_uint (Nat.to_uint (j + 1)))))
                  (j + 1)) as Hj.
    rewrite H in Hi. rewrite Hi in Hj. injection Hj as Hj. lia.
Qed.

End MainPageFacts.

(* ================================================================== *)
(** * Part III.e  The client page: polling and its lifecycle *)
(* ================================================================== *)

Module ClientPageFacts.
Import Js Client JsMore JsFacts JsMoreFacts ClientPage.

Lemma includes_suffix (before s p : jsstring) :
  includes s p = true -> includes (before ++ s) p = true.
Proof.
  intros H. induction before as [|c before IH]; simpl; [exact H|].
  rewrite IH. apply orb_true_r.
Qed.

Lemma ok_not_304 (status : nat) : ok status = true -> Nat.eqb status 304 = false.
Proof.
  unfold ok. intros H. apply andb_true_iff in H. destruct H as [_ H].
  apply Nat.leb_le in H. apply Nat.eqb_neq. lia.
Qed.

Section PageFacts.

Variable Number_toString : float -> jsstring.
Variable StringToNumber : jsstring -> float.
Variable toLocaleTimeString : scalar -> jsstring.
Variable clientId : scalar.
Variable source_object : Detection -> json.
Variable no_length_message : jsstring.

#[local] Abbreviation poll :=
  (pollForClientUpdates Number_toString StringToNumber toLocaleTimeString
     clientId source_object no_length_message).
#[local] Abbreviation render :=
  (renderCards Number_toString StringToNumber toLocaleTimeString clientId).
#[local] Abbreviation initial_data :=
  (loadInitialData Number_toString StringToNumber toLocaleTimeString
     clientId source_object).
#[local] Abbreviation not_found :=
  (tpl "<div class=`error`>Client " ++ ToString Number_toString clientId
   ++ tpl " not found on server</div>").

(** ** What a poll leaves alone *)

Lemma poll_failed_globals (message : jsstring) (w : World) :
  let w' := poll_failed Number_toString clientId message w in
  config w' = config w /\ previousDetections w' = previousDetections w
  /\ lastETag w' = lastETag w /\ pollingInterval w' = pollingInterval w
  /\ pollingActive w' = pollingActive w /\ intervals w' = intervals w
  /\ next_handle w' = next_handle w /\ requests w' = requests w.
Proof. cbv zeta. unfold poll_failed. repeat split. Qed.

Lemma poll_keeps_timers (w : World) (r : fetched) :
  pollingInterval (poll w r) = pollingInterval w
  /\ pollingActive (poll w r) = pollingActive w
  /\ intervals (poll w r) = intervals w
  /\ next_handle (poll w r) = next_handle w
  /\ requests (poll w r) = requests w
  /\ config (poll w r) = config w.
Proof.
  unfold pollForClientUpdates.
  destruct r as [message|status statusText ETag b]; [repeat split|].
  destruct (Nat.eqb status 304); [repeat split|].
  destruct (negb (ok status)); [repeat split|].
  destruct b as [message|last_update detections|message|last_update v message
                |last_update before bad after message]; cbv zeta.
  - repeat split.
  - destruct (detectChanges _ _ _); destruct detections; repeat split.
  - repeat split.
  - unfold renderCards_other.
    destruct (detectChanges _ _ _); destruct (shows_no_tables v); repeat split.
  - destruct (detectChanges _ _ _); repeat split.
Qed.

Lemma initial_data_keeps_timers (w : World) (r : fetched) :
  pollingInterval (initial_data w r) = pollingInterval w
  /\ pollingActive (initial_data w r) = pollingActive w
  /\ intervals (initial_data w r) = intervals w
  /\ next_handle (initial_data w r) = next_handle w
  /\ requests (initial_data w r) = requests w.
Proof.
  unfold loadInitialData.
  destruct r as [message|status statusText ETag b]; [repeat split|].
  destruct (ok status); [|repeat split].
  destruct b as [message|last_update [| |l]|message|last_update v message
                |last_update before bad after message];
    try (repeat split; fail).
  unfold renderCards_other. destruct (shows_no_tables v); repeat split.
Qed.

Lemma config_keeps_timers (w : World) (c : config_fetched) :
  pollingInterval (loadConfig Number_toString clientId w c) = pollingInterval w
  /\ pollingActive (loadConfig Number_toString clientId w c) = pollingActive w
  /\ intervals (loadConfig Number_toString clientId w c) = intervals w
  /\ next_handle (loadConfig Number_toString clientId w c) = next_handle w
  /\ requests (loadConfig Number_toString clientId w c) = requests w.
Proof.
  unfold loadConfig.
  destruct c as [message|status [message|c]]; try (repeat split; fail);
    destruct (negb (ok status)); repeat split.
Qed.

(** ** The lifecycle *)

Lemma one_timer_same (w w' : World) :
  pollingInterval w' = pollingInterval w -> pollingActive w' = pollingActive w ->
  intervals w' = intervals w -> next_handle w' = next_handle w ->
  one_timer w -> one_timer w'.
Proof.
  unfold one_timer. intros -> -> -> ->. tauto.
Qed.

Lemma one_timer_start (w : World) : one_timer w -> one_timer (startClientPolling w).
Proof.
  unfold one_timer, startClientPolling.
  destruct (pollingInterval w) as [h|] eqn:E; intros (Ha & Hi & Hh).
  - rewrite Ha, E. tauto.
  - rewrite Ha. simpl. rewrite Hi. repeat split; lia.
Qed.

Lemma one_timer_stop (w : World) : one_timer w -> one_timer (stopClientPolling w).
Proof.
  unfold one_timer, stopClientPolling.
  destruct (pollingInterval w) as [[|h]|] eqn:E; intros (Ha & Hi & Hh); simpl.
  - lia.
  - rewrite Hi. simpl. rewrite Nat.eqb_refl. simpl. repeat split; lia.
  - rewrite Hi. repeat split; lia.
Qed.

Lemma one_timer_handle (w : World) (e : event) :
  one_timer w ->
  one_timer (handle Number_toString StringToNumber toLocaleTimeString
               clientId source_object no_length_message w e).
Proof.
  intros H. destruct e as [hidden|persisted| |h|r]; simpl.
  - destruct (negb hidden && negb (pollingActive w)); [apply one_timer_start; exact H|].
    destruct (hidden && pollingActive w); [apply one_timer_stop; exact H|exact H].
  - destruct (persisted && negb (pollingActive w)); [apply one_timer_start; exact H|exact H].
  - destruct (pollingActive w); [apply one_timer_stop; exact H|exact H].
  - destruct (existsb (Nat.eqb h) (intervals w) && pollingActive w); exact H.
  - pose proof (poll_keeps_timers w r) as (H1 & H2 & H3 & H4 & _).
    eapply one_timer_same; [exact H1|exact H2|exact H3|exact H4|exact H].
Qed.

Lemma one_timer_handle_all (events : list event) (w : World) :
  one_timer w ->
  one_timer (handle_all Number_toString StringToNumber toLocaleTimeString
               clientId source_object no_length_message w events).
Proof.
  unfold handle_all. revert w.
  induction events as [|e events IH]; intros w H; simpl; [exact H|].
  apply IH. apply one_timer_handle. exact H.
Qed.

(** X4.  Whatever the page goes through once it is loaded (becoming
    hidden or visible, being restored from the cache, unloading, timers
    firing, requests settling, in any order and number), with or without
    initialize having run first, at most one interval timer is live: one
    exactly while polling is active, the one whose handle the script holds,
    and none otherwise. *)
Theorem at_most_one_interval_timer (d : Dom) (c : config_fetched) (r : fetched)
  (events : list event) :
  one_timer (handle_all Number_toString StringToNumber toLocaleTimeString
               clientId source_object no_length_message (loaded d) events)
  /\ one_timer (handle_all Number_toString StringToNumber toLocaleTimeString
                  clientId source_object no_length_message
                  (initialize Number_toString StringToNumber toLocaleTimeString
                     clientId source_object (loaded d) c r)
                  events).
Proof.
  assert (H0 : one_timer (loaded d)) by (unfold one_timer; simpl; repeat split; lia).
  split; apply one_timer_handle_all; [exact H0|].
  unfold initialize. destruct (negb (truthy_scalar clientId)); [exact H0|].
  apply one_timer_start.
  pose proof (config_keeps_timers (loaded d) c) as (C1 & C2 & C3 & C4 & _).
  pose proof (initial_data_keeps_timers
                (loadConfig Number_toString clientId (loaded d) c) r)
    as (I1 & I2 & I3 & I4 & _).
  eapply one_timer_same; [exact I1|exact I2|exact I3|exact I4|].
  eapply one_timer_same; [exact C1|exact C2|exact C3|exact C4|exact H0].
Qed.

(** ** Responses *)

Lemma render_content (c : Config) (detections : field (list Detection))
  (isUpdate : bool) (d d' : Dom) :
  content (render c detections isUpdate d) = content (render c detections isUpdate d').
Proof. destruct detections as [| |[|t ts]]; reflexivity. Qed.

Lemma render_indicator (c : Config) (detections : field (list Detection))
  (isUpdate : bool) (d : Dom) :
  updateIndicator (render c detections isUpdate d) = updateIndicator d.
Proof. destruct detections as [| |[|t ts]]; reflexivity. Qed.

Lemma updateStatus_indicator (lastUpdate : scalar) (n : nat) (d : Dom) :
  updateIndicator (updateStatus Number_toString toLocaleTimeString lastUpdate n d) = updateIndicator d.
Proof.
  unfold updateStatus, status_line. destruct (truthy_scalar lastUpdate); reflexivity.
Qed.

Lemma poll_304 (w : World) (text : jsstring) (ETag : field jsstring) (b : body) :
  lastETag (poll w (Response 304 text ETag b)) = lastETag w
  /\ previousDetections (poll w (Response 304 text ETag b)) = previousDetections w
  /\ content (dom (poll w (Response 304 text ETag b))) = content (dom w).
Proof. repeat split. Qed.

(** A poll whose response is ok and carries an array of detections. *)
Lemma poll_good (w : World) (status : nat) (text : jsstring)
  (ETag : field jsstring) (last_update : scalar) (l : list Detection) :
  ok status = true ->
  let hasChanges :=
    detectChanges Number_toString (previousDetections w)
      (detections_json source_object (Val l)) in
  let w' := poll w (Response status text ETag (Parsed last_update (Val l))) in
  lastETag w' = ETag
  /\ previousDetections w' = detections_json source_object (Val l)
  /\ dom w'
     = updateClientStatus true
         (updateConnectionStatus (lit "connected") (green_circle ++ lit " Connected")
            (render (config w) (Val l) hasChanges
               (updateStatus Number_toString toLocaleTimeString last_update (List.length l)
                  (if hasChanges then showUpdateIndicator (dom w) else dom w)))).
Proof.
  intros Hok. cbv zeta. unfold pollForClientUpdates.
  rewrite (ok_not_304 _ Hok), Hok. simpl negb. cbv iota zeta.
  destruct (detectChanges Number_toString _ _); repeat split.
Qed.



(** A poll whose response is ok and whose detections are a value, no
    array, on which renderCards reads that there are no tables. *)
Lemma poll_no_tables (w : World) (status : nat) (text : jsstring)
  (ETag : field jsstring) (last_update : scalar) (v : other) (message : jsstring) :
  ok status = true ->
  shows_no_tables v = true ->
  let hasChanges :=
    detectChanges Number_toString (previousDetections w) (Some (json_of_other v)) in
  let w' := poll w (Response status text ETag (ParsedOther last_update v message)) in
  lastETag w' = ETag
  /\ previousDetections w' = Some (json_of_other v)
  /\ dom w'
     = updateClientStatus true
         (updateConnectionStatus (lit "connected") (green_circle ++ lit " Connected")
            (no_tables_detected Number_toString clientId
               (status_line Number_toString toLocaleTimeString last_update (length_of v)
                  (if hasChanges then showUpdateIndicator (dom w) else dom w)))).
Proof.
  intros Hok Hv. cbv zeta. unfold pollForClientUpdates.
  rewrite (ok_not_304 _ Hok), Hok. simpl negb. cbv iota zeta.
  unfold renderCards_other. rewrite Hv.
  destruct (detectChanges Number_toString _ _); repeat split.
Qed.


(** X8.  A response with status 404 always replaces the content by the
    client-not-found message, the stored detections and lastETag kept; so
    does any other failed response whose status text contains 404; a
    rejected request whose message does not contain 404 leaves the content
    as it is. *)
Theorem not_found_shown_for_404 (w : World) :
  (forall (text : jsstring) (ETag : field jsstring) (b : body),
      let w' := poll w (Response 404 text ETag b) in
      content (dom w') = not_found
      /\ statusText (dom w') = lit "Offline"
      /\ lastETag w' = lastETag w
      /\ previousDetections w' = previousDetections w)
  /\ (forall (status : nat) (text : jsstring) (ETag : field jsstring) (b : body),
         Nat.eqb status 304 = false -> ok status = false ->
         includes text (lit "404") = true ->
         content (dom (poll w (Response status text ETag b))) = not_found)
  /\ (forall message : jsstring,
         includes message (lit "404") = false ->
         content (dom (poll w (Rejected message))) = content (dom w)).
Proof.
  split; [|split].
  - intros text ETag b. cbv zeta. unfold pollForClientUpdates.
    change (Nat.eqb 404 304) with false. change (negb (ok 404)) with true.
    cbv iota. unfold poll_failed. cbv zeta.
    change (decimal_nat 404) with (lit "404").
    rewrite (includes_app (lit "HTTP ") (lit "404") (lit ": " ++ text)).
    repeat split.
  - intros status text ETag b H304 Hok Hin. unfold pollForClientUpdates.
    rewrite H304, Hok. simpl negb. cbv iota. unfold poll_failed. cbv zeta.
    rewrite !app_assoc.
    rewrite (includes_suffix ((lit "HTTP " ++ decimal_nat status) ++ lit ": ") text _ Hin).
    reflexivity.
  - intros message Hin. unfold pollForClientUpdates, poll_failed. cbv zeta.
    rewrite Hin. reflexivity.
Qed.

(** X9.  A response that settles after polling was stopped is handled
    all the same: where the poll runs to its end on it, the page then reads
    connected and online although polling is off and no timer is live. *)
Theorem response_after_stop_shows_connected (w : World) (status : nat)
  (text : jsstring) (ETag : field jsstring) (b : body) :
  ok status = true ->
  runs_through b = true ->
  one_timer w ->
  let w' := poll (stopClientPolling w) (Response status text ETag b) in
  pollingActive w' = false
  /\ intervals w' = []
  /\ connectionStatus_textContent (dom w') = green_circle ++ lit " Connected"
  /\ statusText (dom w') = lit "Online".
Proof.
  intros Hok Hb Hw. cbv zeta.
  assert (D : connectionStatus_textContent
                (dom (poll (stopClientPolling w) (Response status text ETag b)))
              = green_circle ++ lit " Connected"
              /\ statusText (dom (poll (stopClientPolling w) (Response status text ETag b)))
                 = lit "Online").
  { destruct b as [message|last_update [| |l]|message|last_update v message
                  |last_update before bad after message];
      simpl in Hb; try discriminate Hb.
    - pose proof (poll_good (stopClientPolling w) status text ETag last_update l Hok)
        as (_ & _ & D).
      rewrite D. split; reflexivity.
    - pose proof (poll_no_tables (stopClientPolling w) status text ETag last_update
                    v message Hok Hb) as (_ & _ & D).
      rewrite D. split; reflexivity. }
  pose proof (poll_keeps_timers (stopClientPolling w) (Response status text ETag b))
    as (_ & A & I & _).
  pose proof (one_timer_stop w Hw) as Hs.
  rewrite A, I. unfold one_timer in Hs.
  assert (Hnone : pollingInterval (stopClientPolling w) = None).
  { unfold stopClientPolling. unfold one_timer in Hw.
    destruct (pollingInterval w) as [[|h]|]; simpl; try reflexivity.
    destruct Hw as (_ & _ & Hh). lia. }
  rewrite Hnone in Hs. destruct Hs as (Ha & Hi & _).
  destruct D as (D1 & D2).
  repeat split; assumption.
Qed.


(** X11.  The initial data spares the first poll a false update: after
    loadInitialData has rendered an array of detections, which records no
    ETag, a first poll that brings the same array leaves the update
    indicator untouched and renders the tables without the update
    classes. *)
Theorem initial_data_then_same_poll_no_update (w : World)
  (status status' : nat) (text text' : jsstring)
  (ETag ETag' : field jsstring) (last_update last_update' : scalar)
  (l : list Detection) :
  ok status = true -> ok status' = true ->
  let w1 := initial_data w (Response status text ETag (Parsed last_update (Val l))) in
  let w2 := poll w1 (Response status' text' ETag' (Parsed last_update' (Val l))) in
  lastETag w1 = lastETag w
  /\ previousDetections w1 = detections_json source_object (Val l)
  /\ updateIndicator (dom w2) = updateIndicator (dom w)
  /\ content (dom w2) = content (render (config w) (Val l) false (dom w)).
Proof.
  intros Hok Hok'. cbv zeta.
  assert (H1 : initial_data w (Response status text ETag (Parsed last_update (Val l)))
               = with_previousDetections (detections_json source_object (Val l))
                   (with_dom
                      (render (config w) (Val l) false
                         (updateStatus Number_toString toLocaleTimeString last_update (List.length l)
                            (dom w))) w)).
  { unfold loadInitialData. rewrite Hok. reflexivity. }
  pose proof (poll_good
                (initial_data w (Response status text ETag (Parsed last_update (Val l))))
                status' text' ETag' last_update' l Hok') as (_ & _ & D2).
  rewrite H1 in D2 |- *.
  cbn [previousDetections with_previousDetections with_dom config dom lastETag] in D2 |- *.
  assert (Hsame : detectChanges Number_toString
                    (detections_json source_object (Val l))
                    (detections_json source_object (Val l)) = false).
  { unfold detectChanges. apply negb_false_iff. apply strict_eq_eq. reflexivity. }
  rewrite Hsame in D2.
  repeat split.
  - rewrite D2. unfold updateClientStatus, updateConnectionStatus.
    cbn [updateIndicator].
    rewrite render_indicator, updateStatus_indicator.
    rewrite render_indicator, updateStatus_indicator. reflexivity.
  - rewrite D2. unfold updateClientStatus, updateConnectionStatus.
    cbn [content]. apply render_content.
Qed.

End PageFacts.

End ClientPageFacts.

(* ================================================================== *)
(** * Part III.f  The pages at the sample data *)
(* ================================================================== *)

Module PageChecks.
Import Js Client JsMore ClientPage PageSamples.

#[local] Abbreviation poll :=
  (pollForClientUpdates Samples.Number_toString Samples.StringToNumber
     Samples.toLocaleTimeString clientId source_object no_length_message).

Example first_poll_shows_update :
  let w := poll fresh one_table in
  updateIndicator (dom w) = true
  /\ status (dom w) = lit "Last update: 12:00:00 - 1 table (Real-time)"
  /\ if_none_match w = Some (lit "v1").
Proof. vm_compute. repeat split. Qed.

(** X3 at two documents that serialize alike. *)
Lemma unchanged_is_transitive_at_null :
  Client.detectChanges Samples.Number_toString
    (Some JNull) (Some (JNumber PrimFloat.infinity)) = false.
Proof.
  apply (proj2 (proj2 (MoreClientFacts.detectChanges_unchanged_is_equivalence
                         Samples.Number_toString))
           (Some JNull) (Some (JNumber PrimFloat.nan)) (Some (JNumber PrimFloat.infinity)));
    reflexivity.
Defined.


(** An array whose only element is null: the status line is written, the
    builders throw, and the page ends on a connection error with the ETag
    recorded and the detections not stored. *)
Example null_element_ends_in_error :
  let w := poll (poll fresh one_table)
             (Response 200 (lit "OK") (Val (lit "v2")) null_element) in
  status (dom w) = lit "Last update: 12:00:00 - 1 table (Real-time)"
  /\ connectionStatus_textContent (dom w) = red_circle ++ lit " Connection Error"
  /\ statusText (dom w) = lit "Offline"
  /\ lastETag w = Val (lit "v2")
  /\ previousDetections w = previousDetections (poll fresh one_table)
  /\ content (dom w) = content (dom (poll fresh one_table)).
Proof. vm_compute. repeat split. Qed.



Example empty_string_is_stored :
  let w := poll fresh (Response 200 (lit "OK") Null empty_string_detections) in
  previousDetections w = Some (JString [])
  /\ status (dom w) = lit "Last update: 12:00:00 - 0 tables (Real-time)"
  /\ content (dom w) = tpl "<div class=`error`>No tables detected for client alpha</div>".
Proof. vm_compute. repeat split. Qed.

(** X8 at a 503 whose status text mentions 404. *)
Lemma not_found_shown_for_503 :
  content (dom (poll fresh (Response 503 (lit "upstream said 404") Null
                              (Unparseable []))))
  = tpl "<div class=`error`>Client alpha not found on server</div>".
Proof.
  apply (proj1 (proj2 (@ClientPageFacts.not_found_shown_for_404
                         Samples.Number_toString Samples.StringToNumber
                         Samples.toLocaleTimeString
                         clientId source_object no_length_message fresh)));
    reflexivity.
Defined.

(** X9 at the page hidden right after its first request. *)
Lemma connected_while_stopped :
  pollingActive (poll (stopClientPolling (startClientPolling fresh)) one_table) = false.
Proof.
  apply (@ClientPageFacts.response_after_stop_shows_connected
           Samples.Number_toString Samples.StringToNumber Samples.toLocaleTimeString
           clientId source_object no_length_message
           (startClientPolling fresh) 200 (lit "OK") (Val (lit "v1"))
           (Parsed (SString (lit "2024-01-01T12:00:00")) (Val [Samples.table]))).
  - reflexivity.
  - reflexivity.
  - unfold one_timer. simpl. repeat split; lia.
Defined.


Example polling_starts_without_config :
  option_map pollingActive
    (initialize_any Samples.Number_toString Samples.StringToNumber
       Samples.toLocaleTimeString clientId source_object fresh
       (ConfigSettles config_gone) one_table)
  = Some true.
Proof. reflexivity. Qed.

(** X11 at the sample table loaded first and polled next. *)
Lemma no_update_after_initial_data :
  lastETag (loadInitialData Samples.Number_toString Samples.StringToNumber
              Samples.toLocaleTimeString clientId source_object fresh one_table)
  = lastETag fresh.
Proof.
  apply (@ClientPageFacts.initial_data_then_same_poll_no_update
           Samples.Number_toString Samples.StringToNumber Samples.toLocaleTimeString
           clientId source_object no_length_message
           fresh 200 200 (lit "OK") (lit "OK") (Val (lit "v1")) (Val (lit "v1"))
           (SString (lit "2024-01-01T12:00:00")) (SString (lit "2024-01-01T12:00:00"))
           [Samples.table]);
    reflexivity.
Defined.

(** X12 at the three sample tables. *)
Lemma navigation_shown_for_three_tables :
  MainPageTables.clientsNav_display
    (MainPageTables.updateClientsNavigation three_tables hidden_nav) = lit "block".
Proof.
  apply (proj1 (@MainPageFacts.navigation_shown_with_grid
                  Samples.Number_toString Samples.StringToNumber
                  Samples.toLocaleTimeString
                  Client.config three_tables true hidden_nav)).
  reflexivity.
Defined.

(** X13 at the three sample tables: one client is counted. *)
Lemma one_client_counted :
  MainPageTables.clientCount
    (MainPageTables.updateClientsNavigation three_tables hidden_nav)
  = decimal_nat (List.length (MainPageTables.clientIds three_tables)).
Proof.
  apply (proj2 (proj2 (proj2 (MainPageFacts.client_ids_listed_once three_tables)))).
  vm_compute. discriminate.
Defined.

Example ids_of_first_and_tenth_table :
  MainPageTables.tableId 0 = lit "01" /\ MainPageTables.tableId 9 = lit "10"
  /\ MainPageTables.tableId 99 = lit "100".
Proof. vm_compute. repeat split. Qed.

End PageChecks.

(* ================================================================== *)
(** * Part III.g  The table container *)
(* ================================================================== *)

Module ContainerFacts.
Import Js Client.

Lemma append_if_truthy_app (content section : jsstring) :
  append_if_truthy content section = content ++ section.
Proof.
  destruct section as [|c s]; simpl; [rewrite app_nil_r|]; reflexivity.
Qed.

Section Container.

Variable Number_toString : float -> jsstring.
Variable StringToNumber : jsstring -> float.
Variable toLocaleTimeString : scalar -> jsstring.

(** X15.  The guards around the two appends of createTableContainer make
    no difference: the table is always the frame around the player cards
    column, the table cards section and the positions section, in this
    order, followed by the moves and the solver link sections.  No toggle
    hides the player cards: with all four toggles off the table is the
    frame around the player cards column alone. *)
Theorem createTableContainer_sections_in_order
  (config : Config) (detection : Detection) (isUpdate : bool) :
  createTableContainer Number_toString StringToNumber toLocaleTimeString
    config detection isUpdate
  = tableFrame Number_toString toLocaleTimeString detection isUpdate
      (playerCardsColumn Number_toString detection isUpdate
       ++ createTableCardsSection Number_toString config detection isUpdate
       ++ createPositionsSection Number_toString config detection isUpdate)
      (createMovesSection Number_toString StringToNumber config detection isUpdate)
      (createSolverLinkSection config detection isUpdate)
  /\ (show_table_cards config = false -> show_positions config = false ->
      show_moves config = false -> show_solver_link config = false ->
      createTableContainer Number_toString StringToNumber toLocaleTimeString
        config detection isUpdate
      = tableFrame Number_toString toLocaleTimeString detection isUpdate
          (playerCardsColumn Number_toString detection isUpdate) [] []).
Proof.
  assert (H : createTableContainer Number_toString StringToNumber toLocaleTimeString
                config detection isUpdate
              = tableFrame Number_toString toLocaleTimeString detection isUpdate
                  (playerCardsColumn Number_toString detection isUpdate
                   ++ createTableCardsSection Number_toString config detection isUpdate
                   ++ createPositionsSection Number_toString config detection isUpdate)
                  (createMovesSection Number_toString StringToNumber config detection
                     isUpdate)
                  (createSolverLinkSection config detection isUpdate)).
  { unfold createTableContainer. cbv zeta.
    rewrite !append_if_truthy_app, <- app_assoc. reflexivity. }
  split; [exact H|].
  intros Ht Hp Hm Hs. rewrite H.
  unfold createTableCardsSection, createPositionsSection, createMovesSection,
    createSolverLinkSection.
  rewrite Ht, Hp, Hm, Hs. simpl. rewrite app_nil_r. reflexivity.
Qed.

End Container.

End ContainerFacts.

Module ContainerChecks.
Import Js Client Samples PageSamples.

(** X15 at the sample table with every toggle off. *)
Lemma player_cards_stay_at_sample_table :
  createTableContainer Samples.Number_toString Samples.StringToNumber
    Samples.toLocaleTimeString all_hidden table false
  = tableFrame Samples.Number_toString Samples.toLocaleTimeString table false
      (playerCardsColumn Samples.Number_toString table false) [] [].
Proof.
  apply (proj2 (@ContainerFacts.createTableContainer_sections_in_order
                  Samples.Number_toString Samples.StringToNumber
                  Samples.toLocaleTimeString all_hidden table false));
    reflexivity.
Defined.

End ContainerChecks.
